(** * Blockchain_Auditing: the node's RPC handlers (src/server.cpp)

    A shallow embedding of the two gRPC services of [server.cpp]
    ([FileAuditServiceImpl] and [BlockChainServiceImpl]) together with the
    collaborators they call, followed by the properties the specification
    states about them.

    Conventions.
    - Protobuf [string] fields are [string] (a list of bytes; proto3 strings
      are valid UTF-8), [int64] fields are [Z].
    - A handler takes the node state and returns the gRPC status, the
      response message it filled in, the node state it leaves behind and the
      list of externally visible effects (outbound RPCs, gossip log lines).
    - Console logging other than the gossip outcome lines is not modelled. *)

From Stdlib Require Import ZArith String Ascii List Bool DecimalString DecimalZ
  Sorted Lia.
From stdpp Require Import base option list gmap strings.

#[local] Set Warnings "-register-all".
Local Open Scope string_scope.
Local Open Scope list_scope.
Local Open Scope Z_scope.

(** ** Characters and number printing *)

Definition chr (n : N) : string := String (ascii_of_N n) EmptyString.

(** The two characters that cannot be written inside a literal. *)
Definition dquote : string := chr 34.
Definition backslash : string := chr 92.
Definition newline : string := chr 10.

(** [std::to_string] on an [int64_t], and nlohmann's [dump_integer]: plain
    decimal, a leading minus sign for negative numbers. *)
Definition to_string (z : Z) : string := NilEmpty.string_of_int (Z.to_int z).

Definition hex_digit (n : N) : string :=
  match n with
  | 0 => "0" | 1 => "1" | 2 => "2" | 3 => "3" | 4 => "4" | 5 => "5"
  | 6 => "6" | 7 => "7" | 8 => "8" | 9 => "9" | 10 => "a" | 11 => "b"
  | 12 => "c" | 13 => "d" | 14 => "e" | _ => "f"
  end%N.

(** Two lowercase hex digits of a byte. *)
Definition hex_byte (n : N) : string :=
  hex_digit (n / 16) +:+ hex_digit (n mod 16).

(** ** Wire messages (namespaces [common], [fileaudit], [blockchain]) *)

Module common.
Record FileInfo := { file_id : string; file_name : string }.
Record UserInfo := { user_id : string; user_name : string }.

Record FileAudit := {
  req_id : string;
  file_info : FileInfo;
  user_info : UserInfo;
  access_type : string;
  timestamp : Z;
  signature : string;
  public_key : string
}.

Definition set_signature (v : string) (a : FileAudit) : FileAudit :=
  {| req_id := req_id a; file_info := file_info a; user_info := user_info a;
     access_type := access_type a; timestamp := timestamp a;
     signature := v; public_key := public_key a |}.
Definition set_public_key (v : string) (a : FileAudit) : FileAudit :=
  {| req_id := req_id a; file_info := file_info a; user_info := user_info a;
     access_type := access_type a; timestamp := timestamp a;
     signature := signature a; public_key := v |}.
End common.

Module grpc.
Inductive StatusCode :=
| OK | CANCELLED | UNKNOWN | INVALID_ARGUMENT | DEADLINE_EXCEEDED
| NOT_FOUND | ALREADY_EXISTS | PERMISSION_DENIED | RESOURCE_EXHAUSTED
| FAILED_PRECONDITION | ABORTED | OUT_OF_RANGE | UNIMPLEMENTED
| INTERNAL | UNAVAILABLE | DATA_LOSS | UNAUTHENTICATED.

Record Status := { error_code : StatusCode; error_message : string }.

Definition Status_OK : Status :=
  {| error_code := OK; error_message := EmptyString |}.

Definition ok (st : Status) : bool :=
  match error_code st with OK => true | _ => false end.
End grpc.

Module fileaudit.
Record FileAuditResponse := { req_id : string; status : string }.

Definition default : FileAuditResponse :=
  {| req_id := EmptyString; status := EmptyString |}.
Definition set_req_id (v : string) (r : FileAuditResponse) :=
  {| req_id := v; status := status r |}.
Definition set_status (v : string) (r : FileAuditResponse) :=
  {| req_id := req_id r; status := v |}.
End fileaudit.

Module blockchain.
Record Block := {
  id : Z;
  hash : string;
  previous_hash : string;
  merkle_root : string;
  audits : list common.FileAudit
}.

Definition Block_default : Block :=
  {| id := 0; hash := EmptyString; previous_hash := EmptyString;
     merkle_root := EmptyString; audits := [] |}.
End blockchain.

Module WhisperResponse.
Record t := { status : string }.
Definition default : t := {| status := EmptyString |}.
Definition set_status (v : string) (_ : t) : t := {| status := v |}.
End WhisperResponse.

Module BlockVoteResponse.
Record t := { vote : bool; status : string; error_message : string }.
Definition default : t :=
  {| vote := false; status := EmptyString; error_message := EmptyString |}.
Definition set_vote (v : bool) (r : t) : t :=
  {| vote := v; status := status r; error_message := error_message r |}.
Definition set_status (v : string) (r : t) : t :=
  {| vote := vote r; status := v; error_message := error_message r |}.
Definition set_error_message (v : string) (r : t) : t :=
  {| vote := vote r; status := status r; error_message := v |}.
End BlockVoteResponse.

Module BlockCommitResponse.
Record t := { status : string; error_message : string }.
Definition default : t :=
  {| status := EmptyString; error_message := EmptyString |}.
Definition set_status (v : string) (r : t) : t :=
  {| status := v; error_message := error_message r |}.
Definition set_error_message (v : string) (r : t) : t :=
  {| status := status r; error_message := v |}.
End BlockCommitResponse.

Module GetBlockResponse.
Record t := {
  block : option blockchain.Block;
  status : string;
  error_message : string
}.
Definition default : t :=
  {| block := None; status := EmptyString; error_message := EmptyString |}.
Definition set_block (b : blockchain.Block) (r : t) : t :=
  {| block := Some b; status := status r; error_message := error_message r |}.
Definition set_status (v : string) (r : t) : t :=
  {| block := block r; status := v; error_message := error_message r |}.
Definition set_error_message (v : string) (r : t) : t :=
  {| block := block r; status := status r; error_message := v |}.
End GetBlockResponse.

Module GetBlockRequest.
Record t := { id : Z }.
End GetBlockRequest.

Module TriggerElectionRequest.
Record t := { address : string }.
End TriggerElectionRequest.

Module NotifyLeadershipRequest.
Record t := { address : string }.
End NotifyLeadershipRequest.

Module HeartbeatRequest.
Record t := {
  from_address : string;
  current_leader_address : string;
  latest_block_id : Z;
  mem_pool_size : Z
}.
End HeartbeatRequest.

Module HeartbeatResponse.
Record t := { status : string }.
Definition default : t := {| status := EmptyString |}.
Definition set_status (v : string) (_ : t) : t := {| status := v |}.
End HeartbeatResponse.

Module TriggerElectionResponse.
Record t := { vote : bool; term : Z; status : string }.
Definition default : t := {| vote := false; term := 0; status := EmptyString |}.
Definition set_vote (v : bool) (r : t) : t :=
  {| vote := v; term := term r; status := status r |}.
Definition set_term (v : Z) (r : t) : t :=
  {| vote := vote r; term := v; status := status r |}.
Definition set_status (v : string) (r : t) : t :=
  {| vote := vote r; term := term r; status := v |}.
End TriggerElectionResponse.

Module NotifyLeadershipResponse.
Record t := { status : string }.
Definition default : t := {| status := EmptyString |}.
Definition set_status (v : string) (_ : t) : t := {| status := v |}.
End NotifyLeadershipResponse.

(** ** nlohmann::ordered_json, as far as the handlers use it *)

Module Json.
Inductive json :=
| Jstring (s : string)
| Jinteger (n : Z)
| Jobject (members : list (string * json)).

(** [ordered_map::operator[]] followed by an assignment: the value of an
    existing key is overwritten in place, a new key goes to the end.  The
    handlers start from a default-constructed [ordered_json j], which the
    first [j[key] = ...] turns into an empty object; the variable [j] is
    therefore modelled by the member list of that object. *)
Fixpoint assign (k : string) (v : json) (ms : list (string * json))
  : list (string * json) :=
  match ms with
  | [] => [(k, v)]
  | (k', v') :: rest =>
      if String.eqb k' k then (k', v) :: rest
      else (k', v') :: assign k v rest
  end.

(** [ordered_map::emplace], used by the initializer-list constructor: an
    existing key keeps its first value. *)
Fixpoint emplace (k : string) (v : json) (ms : list (string * json))
  : list (string * json) :=
  match ms with
  | [] => [(k, v)]
  | (k', v') :: rest =>
      if String.eqb k' k then (k', v') :: rest
      else (k', v') :: emplace k v rest
  end.

(** The braced list of key/value pairs, [{{"k1", v1}, {"k2", v2}}]. *)
Definition init (pairs : list (string * json)) : json :=
  Jobject (fold_left (fun ms kv => emplace (fst kv) (snd kv) ms) pairs []).

(** [serializer::dump_escaped] with [ensure_ascii = false]: the short
    escapes, [\u00xx] for the other control characters, every other byte
    copied.  The library refuses text that is not UTF-8; the fields dumped
    here are proto3 strings, which are. *)
Definition escape_byte (c : ascii) : string :=
  let n := N_of_ascii c in
  if (n =? 8)%N then backslash +:+ "b"
  else if (n =? 9)%N then backslash +:+ "t"
  else if (n =? 10)%N then backslash +:+ "n"
  else if (n =? 12)%N then backslash +:+ "f"
  else if (n =? 13)%N then backslash +:+ "r"
  else if (n =? 34)%N then backslash +:+ dquote
  else if (n =? 92)%N then backslash +:+ backslash
  else if (n <=? 31)%N then backslash +:+ "u00" +:+ hex_byte n
  else String c EmptyString.

Fixpoint dump_escaped (s : string) : string :=
  match s with
  | EmptyString => EmptyString
  | String c rest => escape_byte c +:+ dump_escaped rest
  end.

Definition dump_string (s : string) : string :=
  dquote +:+ dump_escaped s +:+ dquote.

(** The members of an object: a comma between two, none at the end. *)
Definition dump_members (dump : json -> string)
  : list (string * json) -> string :=
  fix members (ms : list (string * json)) : string :=
    match ms with
    | [] => EmptyString
    | [(k, v)] => dump_string k +:+ ":" +:+ dump v
    | (k, v) :: rest =>
        dump_string k +:+ ":" +:+ dump v +:+ "," +:+ members rest
    end.

(** [dump()] with the default arguments: no indentation, no spaces. *)
Fixpoint dump (j : json) : string :=
  match j with
  | Jstring s => dump_string s
  | Jinteger n => to_string n
  | Jobject ms => "{" +:+ dump_members dump ms +:+ "}"
  end.


End Json.

(** ** merkle_tree.h: SHA256Hex and ComputeMerkleRoot *)

(** Modelled from the spec: merkle_tree.h is not part of the sources; the
    digest behind [sha256_hex] of §4.3 is SHA-256 (FIPS 180-4), written out
    here on byte lists. *)
Module SHA256.
(** 32-bit words are [Z] in [0, 2^32); every addition is reduced. *)
Definition w32 (x : Z) : Z := x mod 2 ^ 32.
Definition add32 (x y : Z) : Z := w32 (x + y).
Definition rotr (n x : Z) : Z :=
  Z.lor (Z.shiftr x n) (w32 (Z.shiftl x (32 - n))).

Definition Ch (x y z : Z) : Z := Z.lxor (Z.land x y) (Z.land (Z.lnot x) z).
Definition Maj (x y z : Z) : Z :=
  Z.lxor (Z.land x y) (Z.lxor (Z.land x z) (Z.land y z)).
Definition Sigma0 (x : Z) : Z :=
  Z.lxor (rotr 2 x) (Z.lxor (rotr 13 x) (rotr 22 x)).
Definition Sigma1 (x : Z) : Z :=
  Z.lxor (rotr 6 x) (Z.lxor (rotr 11 x) (rotr 25 x)).
Definition sigma0 (x : Z) : Z :=
  Z.lxor (rotr 7 x) (Z.lxor (rotr 18 x) (Z.shiftr x 3)).
Definition sigma1 (x : Z) : Z :=
  Z.lxor (rotr 17 x) (Z.lxor (rotr 19 x) (Z.shiftr x 10)).

(** The constants are the leading fraction bits of the square and cube
    roots of the first primes; they are computed once, here. *)
Definition is_prime (n : Z) : bool :=
  (2 <=? n) && forallb (fun d => negb (n mod d =? 0))
                       (map Z.of_nat (seq 2 (Z.to_nat n - 2))).

Definition primes : list Z :=
  Eval vm_compute in List.filter is_prime (map Z.of_nat (seq 2 310)).

Fixpoint cube_root (bits : nat) (x acc : Z) : Z :=
  match bits with
  | O => acc
  | S b =>
      let c := acc + 2 ^ Z.of_nat b in
      if c * c * c <=? x then cube_root b x c else cube_root b x acc
  end.

Definition K : list Z :=
  Eval vm_compute in map (fun p => w32 (cube_root 40 (p * 2 ^ 96) 0)) primes.

Definition H0 : list Z :=
  Eval vm_compute in map (fun p => w32 (Z.sqrt (p * 2 ^ 64))) (firstn 8 primes).

Definition bytes_of (s : string) : list Z :=
  map (fun c => Z.of_N (N_of_ascii c)) (list_ascii_of_string s).

Definition be_bytes (n : nat) (x : Z) : list Z :=
  map (fun i => Z.shiftr x (8 * Z.of_nat i) mod 256) (rev (seq 0 n)).

(** Message, one [0x80] byte, zeros up to 56 mod 64, the bit length on
    eight bytes. *)
Definition pad (msg : list Z) : list Z :=
  let len := Z.of_nat (length msg) in
  let zeros := Z.to_nat ((55 - len) mod 64) in
  msg ++ [128] ++ repeat 0 zeros ++ be_bytes 8 (8 * len).

Fixpoint words (fuel : nat) (bs : list Z) : list Z :=
  match fuel, bs with
  | S f, b0 :: b1 :: b2 :: b3 :: rest =>
      (((b0 * 256 + b1) * 256 + b2) * 256 + b3) :: words f rest
  | _, _ => []
  end.

(** The message schedule, most recent word first. *)
Fixpoint schedule (n : nat) (ws : list Z) : list Z :=
  match n with
  | O => ws
  | S n' =>
      let w := add32 (add32 (sigma1 (nth 1 ws 0)) (nth 6 ws 0))
                     (add32 (sigma0 (nth 14 ws 0)) (nth 15 ws 0)) in
      schedule n' (w :: ws)
  end.

Definition round (st : list Z) (kw : Z * Z) : list Z :=
  match st with
  | [a; b; c; d; e; f; g; h] =>
      let t1 := add32 (add32 (add32 h (Sigma1 e)) (add32 (Ch e f g) (fst kw)))
                      (snd kw) in
      let t2 := add32 (Sigma0 a) (Maj a b c) in
      [add32 t1 t2; a; b; c; add32 d t1; e; f; g]
  | _ => st
  end.

Definition compress (st block : list Z) : list Z :=
  let ws := rev (schedule 48 (rev block)) in
  let st' := fold_left round (combine K ws) st in
  map (fun p => add32 (fst p) (snd p)) (combine st st').

Fixpoint blocks (fuel : nat) (st ws : list Z) : list Z :=
  match fuel, ws with
  | S f, _ :: _ => blocks f (compress st (firstn 16 ws)) (skipn 16 ws)
  | _, _ => st
  end.

Definition digest (s : string) : list Z :=
  let bs := pad (bytes_of s) in
  let ws := words (length bs) bs in
  blocks (length ws) H0 ws.

Definition hex_word (w : Z) : string :=
  fold_right (fun b acc => hex_byte (Z.to_N b) +:+ acc) EmptyString
             (be_bytes 4 w).
End SHA256.

(** Modelled from the spec: merkle_tree.h is not part of the sources; §4.3
    gives [sha256_hex(bytes)] as the 64-character lowercase hex SHA-256
    digest. *)
Definition SHA256Hex (data : string) : string :=
  fold_right (fun w acc => SHA256.hex_word w +:+ acc) EmptyString
             (SHA256.digest data).

(** Modelled from the spec: §4.3, one level of the reduction.  Adjacent
    leaves are paired left to right and the concatenation of the two hex
    texts is hashed; an odd last element is paired with itself. *)
Fixpoint merkle_level (level : list string) : list string :=
  match level with
  | [] => []
  | [x] => [SHA256Hex (x +:+ x)]
  | x :: y :: rest => SHA256Hex (x +:+ y) :: merkle_level rest
  end.

(** Modelled from the spec: §4.3, level after level until one value is
    left; [fuel] bounds the number of levels. *)
Fixpoint merkle_reduce (fuel : nat) (level : list string) : string :=
  match level with
  | [] => SHA256Hex EmptyString
  | [x] => x
  | x :: _ =>
      match fuel with
      | O => x
      | S f => merkle_reduce f (merkle_level level)
      end
  end.

(** Modelled from the spec: merkle_tree.h is not part of the sources; §4.3
    gives the policy (empty list: the digest of the empty string; one leaf:
    that leaf; otherwise halve level by level until one value remains).  A
    level of [n] elements is followed by one of [(n+1)/2], so [n] rounds
    always suffice. *)
Definition ComputeMerkleRoot (leaves : list string) : string :=
  merkle_reduce (length leaves) leaves.

(** ** Collaborators declared in headers that are not part of the sources *)

Module MempoolManager.
Import common.

(** Modelled from the spec: the mempool class is not part of the sources;
    §4.4 describes it as the pending audits keyed by [req_id], at most one
    per id, listed in the order of their first insertion. *)
Definition t := list FileAudit.

(** Modelled from the spec: §4.4, [id] is the key of a pending audit. *)
Definition contains (id : string) (pool : t) : bool :=
  existsb (fun a => String.eqb (req_id a) id) pool.

(** Modelled from the spec: §4.4, [append] inserts by [req_id]; a second
    append with the same id is a no-op. *)
Definition Append (a : FileAudit) (pool : t) : t :=
  if contains (req_id a) pool then pool else pool ++ [a].

(** Modelled from the spec: §4.4, [remove_batch(ids)] is a bulk removal. *)
Definition RemoveBatch (ids : list string) (pool : t) : t :=
  List.filter (fun a => negb (existsb (String.eqb (req_id a)) ids)) pool.

(** Modelled from the spec: §4.4, [load_all] is a snapshot in insertion
    order. *)
Definition LoadAll (pool : t) : list FileAudit := pool.
End MempoolManager.

Module ChainManager.
(** Modelled from the spec: the struct is declared in a header that is not
    part of the sources; §3 names its four fields, in the order of the
    aggregate [BlockMeta meta{id, hash, previous_hash, merkle_root}]. *)
Record BlockMeta := {
  id : Z;
  hash : string;
  previous_hash : string;
  merkle_root : string
}.

(** Modelled from the spec: the chain class is not part of the sources; §3
    and §4.5 describe the index as the sequence of block summaries, oldest
    first, with a genesis constant that the sources do not fix (§9.5). *)
Record t := { genesis : string; index : list BlockMeta }.

(** Modelled from the spec: §3, the hash of the newest entry, or the
    genesis constant when the index is empty. *)
Definition getLastHash (c : t) : string :=
  match List.last (map Some (index c)) None with
  | Some m => hash m
  | None => genesis c
  end.

(** Modelled from the spec: the id of the newest entry.  Ids are contiguous
    from 0 and an append needs [id = getLastID()+1] (§3, §4.5), so the empty
    index answers -1. *)
Definition getLastID (c : t) : Z :=
  match List.last (map Some (index c)) None with
  | Some m => id m
  | None => -1
  end.

(** Modelled from the spec: §4.5, the two outcomes of [append]. *)
Inductive append_result := Appended | ChainBroken.

(** Modelled from the spec: §4.5, [append] fails with [ChainBroken] if the
    incoming [previous_hash] is not [getLastHash()] or [id] is not
    [getLastID()+1]; otherwise the entry goes to the end of the index. *)
Definition append (m : BlockMeta) (c : t) : append_result * t :=
  if negb (String.eqb (previous_hash m) (getLastHash c))
     || negb (id m =? getLastID c + 1)
  then (ChainBroken, c)
  else (Appended, {| genesis := genesis c; index := index c ++ [m] |}).

(** A summary extends the head when [append] has nothing to object to. *)
Definition extends (m : BlockMeta) (c : t) : Prop :=
  previous_hash m = getLastHash c /\ id m = getLastID c + 1.

(** The index invariant of §3: ids run 0, 1, 2, ... *)
Definition contiguous (c : t) : Prop :=
  map id (index c) = map Z.of_nat (seq 0 (length (index c))).
End ChainManager.

Module HeartbeatTable.
(** Modelled from the spec: the entry type is declared in a header that is
    not part of the sources; §3 lists its fields, of which the handlers read
    [from_address], [latest_block_id] and [mem_pool_size]. *)
Record HeartbeatEntry := {
  from_address : string;
  current_leader_address : string;
  latest_block_id : Z;
  mem_pool_size : Z;
  last_seen : Z
}.

(** Modelled from the spec: the table class is not part of the sources;
    §3 and §4.6 describe one entry per peer address, overwritten by every
    heartbeat of that peer. *)
Record info := { leader : string; blocks : Z; pool : Z; seen : Z }.
Abbreviation t := (gmap string info).

(** Modelled from the spec: §4.6, [update] overwrites the entry of [from];
    [now] is the wall clock the table reads. *)
Definition update (now : Z) (from ldr : string) (blk pl : Z) (tbl : t) : t :=
  <[from := {| leader := ldr; blocks := blk; pool := pl; seen := now |}]> tbl.

(** Modelled from the spec: §3, the entry kept under a peer's address. *)
Definition entry (kv : string * info) : HeartbeatEntry :=
  {| from_address := fst kv;
     current_leader_address := leader (snd kv);
     latest_block_id := blocks (snd kv);
     mem_pool_size := pool (snd kv);
     last_seen := seen (snd kv) |}.

(** Modelled from the spec: §4.6, [all()] is a snapshot list. *)
Definition all (tbl : t) : list HeartbeatEntry := entry <$> map_to_list tbl.
End HeartbeatTable.

Module ElectionState.
(** Modelled from the spec: the election state class is not part of the
    sources; §3 and §4.7 give it two strings, both possibly empty, with
    atomic getters and setters. *)
Record t := { leader_address : string; voted_for : string }.

(** Modelled from the spec: §4.7, the four operations. *)
Definition getLeader (s : t) : string := leader_address s.
Definition getVotedFor (s : t) : string := voted_for s.
Definition setLeader (a : string) (s : t) : t :=
  {| leader_address := a; voted_for := voted_for s |}.
Definition setVotedFor (a : string) (s : t) : t :=
  {| leader_address := leader_address s; voted_for := a |}.
End ElectionState.

(** ** The disk under [../blocks] *)

Module FileSystem.
(** File contents by path, and the three ways the disk can fail under the
    handlers: [fs::create_directories] raising [filesystem_error] (the
    payload is its [what()]), [std::ofstream] not opening, and, with the
    stream open, [operator<<] and [close] storing nothing ([full]: no space
    is left on the device).  The last one only sets the stream's error
    flags; it raises nothing. *)
Record t := {
  files : gmap string string;
  read_only : bool;
  mkdir_error : option string;
  full : bool
}.

Definition create_directories (dir : string) (fs : t) : string + t :=
  match mkdir_error fs with
  | Some what => inl what
  | None => inr fs
  end.

(** Opening for writing truncates; [None] is a stream in the failed state. *)
Definition ofstream (path : string) (fs : t) : option t :=
  if read_only fs then None
  else Some {| files := <[path := EmptyString]> (files fs);
               read_only := read_only fs; mkdir_error := mkdir_error fs;
               full := full fs |}.

(** [out << data; out.close()] on an open stream.  On a full device the
    bytes are dropped and the file stays as [ofstream] left it; the caller
    is told nothing unless it asks the stream. *)
Definition write (path data : string) (fs : t) : t :=
  if full fs then fs
  else
    {| files := <[path := default EmptyString (files fs !! path) +:+ data]> (files fs);
       read_only := read_only fs; mkdir_error := mkdir_error fs;
       full := full fs |}.

(** Opening for reading and draining the stream. *)
Definition ifstream (path : string) (fs : t) : option string :=
  files fs !! path.
End FileSystem.

(** ** Node state, effects and handler results *)

Record Node := {
  gossip_stubs_ : list string;
  mempool_ : MempoolManager.t;
  chain_ : ChainManager.t;
  hb_table_ : HeartbeatTable.t;
  state_ : ElectionState.t;
  self_addr_ : string;
  disk : FileSystem.t
}.

Definition with_mempool (m : MempoolManager.t) (n : Node) : Node :=
  {| gossip_stubs_ := gossip_stubs_ n; mempool_ := m; chain_ := chain_ n;
     hb_table_ := hb_table_ n; state_ := state_ n;
     self_addr_ := self_addr_ n; disk := disk n |}.
Definition with_chain (c : ChainManager.t) (n : Node) : Node :=
  {| gossip_stubs_ := gossip_stubs_ n; mempool_ := mempool_ n; chain_ := c;
     hb_table_ := hb_table_ n; state_ := state_ n;
     self_addr_ := self_addr_ n; disk := disk n |}.
Definition with_hb_table (h : HeartbeatTable.t) (n : Node) : Node :=
  {| gossip_stubs_ := gossip_stubs_ n; mempool_ := mempool_ n;
     chain_ := chain_ n; hb_table_ := h; state_ := state_ n;
     self_addr_ := self_addr_ n; disk := disk n |}.
Definition with_state (s : ElectionState.t) (n : Node) : Node :=
  {| gossip_stubs_ := gossip_stubs_ n; mempool_ := mempool_ n;
     chain_ := chain_ n; hb_table_ := hb_table_ n; state_ := s;
     self_addr_ := self_addr_ n; disk := disk n |}.
Definition with_disk (d : FileSystem.t) (n : Node) : Node :=
  {| gossip_stubs_ := gossip_stubs_ n; mempool_ := mempool_ n;
     chain_ := chain_ n; hb_table_ := hb_table_ n; state_ := state_ n;
     self_addr_ := self_addr_ n; disk := d |}.

Definition kGossipTimeoutMs : Z := 200.

Inductive effect :=
| Rpc_WhisperAuditRequest (stub : string) (deadline_ms : Z)
                          (request : common.FileAudit)
| Cout (text : string)
| Cerr (text : string).

Definition is_rpc (e : effect) : bool :=
  match e with Rpc_WhisperAuditRequest _ _ _ => true | _ => false end.

(** What the [i]-th stub's call comes back with: the status (a peer's own,
    a transport error, or the expired deadline) and the reply message. *)
Definition Network :=
  nat -> string -> common.FileAudit -> grpc.Status * WhisperResponse.t.

Record Outcome (R : Type) := {
  rpc_status : grpc.Status;
  response : R;
  node : Node;
  effects : list effect
}.
Arguments rpc_status {R}.
Arguments response {R}.
Arguments node {R}.
Arguments effects {R}.

(** The conversion [static_cast<int64_t>] of a [size_t]. *)
Definition to_int64 (n : Z) : Z := (n + 2 ^ 63) mod 2 ^ 64 - 2 ^ 63.

(** [operator>] on [std::string]: bytes compared as unsigned, a proper
    prefix is smaller. *)
Definition string_gt (a b : string) : bool :=
  match String.compare a b with Gt => true | _ => false end.

(** ** External libraries *)

(** The OpenSSL calls of [Base64Decode] and [VerifySignature].
    [BIO_read_base64] is [BIO_read] through a base64 filter without
    newlines: the returned length and the buffer.  [EVP_DigestVerify] is the
    return code of [EVP_DigestVerifyFinal] after [EVP_DigestVerifyInit] with
    SHA-256, PKCS#1 padding and one [EVP_DigestVerifyUpdate]. *)
Class OpenSSL := {
  EVP_PKEY : Type;
  BIO_read_base64 : string -> Z * string;
  PEM_read_bio_PUBKEY : string -> option EVP_PKEY;
  EVP_DigestVerify : EVP_PKEY -> string -> string -> Z
}.

(** protobuf's JSON mapping of a [Block]; parsing answers the text of a
    non-OK status or the message. *)
Class ProtobufJson := {
  MessageToJsonString : blockchain.Block -> string;
  JsonStringToMessage : string -> string + blockchain.Block
}.

(** ** server.cpp *)

Section Server.
Context `{crypto : OpenSSL} `{pbjson : ProtobufJson}.

Import common.

Definition Base64Decode (b64 : string) : string :=
  let '(len, out) := BIO_read_base64 b64 in
  if len <? 0 then EmptyString
  else String.substring 0 (Z.to_nat len) out.

Definition VerifySignature (data signature_b64 pubkey_pem : string) : bool :=
  let sig := Base64Decode signature_b64 in
  match PEM_read_bio_PUBKEY pubkey_pem with
  | None => false
  | Some pkey =>
      let rc := EVP_DigestVerify pkey data sig in
      rc =? 1
  end.

(** *** FileAuditServiceImpl *)

(** Lines 112-121: the object [j] and the payload whose signature
    [SubmitAudit] checks. *)
Definition SubmitAudit_json (request : FileAudit) : Json.json :=
  let j := [] in
  let j := Json.assign "access_type" (Json.Jstring (access_type request)) j in
  let j := Json.assign "file_info"
             (Json.init [("file_id", Json.Jstring (file_id (file_info request)));
                         ("file_name", Json.Jstring (file_name (file_info request)))]) j in
  let j := Json.assign "req_id" (Json.Jstring (req_id request)) j in
  let j := Json.assign "timestamp" (Json.Jinteger (timestamp request)) j in
  let j := Json.assign "user_info"
             (Json.init [("user_id", Json.Jstring (user_id (user_info request)));
                         ("user_name", Json.Jstring (user_name (user_info request)))]) j in
  Json.Jobject j.

Definition SubmitAudit_payload (request : FileAudit) : string :=
  Json.dump (SubmitAudit_json request).

(** Lines 137-160: one call per stub, each with its own 200 ms deadline;
    the status only selects the log line. *)
Fixpoint gossip (net : Network) (request : FileAudit) (i : nat)
         (stubs : list string) : list effect :=
  match stubs with
  | [] => []
  | stub :: rest =>
      let '(st, wr) := net i stub request in
      let line :=
        if negb (grpc.ok st) then
          match grpc.error_code st with
          | grpc.DEADLINE_EXCEEDED =>
              Cerr ("[Gossip] to peer timed out after "
                    +:+ to_string kGossipTimeoutMs +:+ "ms" +:+ newline)
          | _ => Cerr ("[Gossip] to peer failed: " +:+ grpc.error_message st
                       +:+ newline)
          end
        else Cout ("[Gossip] to peer succeeded: " +:+ WhisperResponse.status wr
                  +:+ newline) in
      Rpc_WhisperAuditRequest stub kGossipTimeoutMs request :: line
        :: gossip net request (S i) rest
  end.

Definition SubmitAudit (net : Network) (self : Node) (request : FileAudit)
  : Outcome fileaudit.FileAuditResponse :=
  let response := fileaudit.default in
  let payload := SubmitAudit_payload request in
  if negb (VerifySignature payload (signature request) (public_key request))
  then
    {| rpc_status := {| grpc.error_code := grpc.INVALID_ARGUMENT;
                        grpc.error_message := "Invalid client signature" |};
       response := response; node := self; effects := [] |}
  else
    let self := with_mempool (MempoolManager.Append request (mempool_ self)) self in
    let sent := gossip net request 0 (gossip_stubs_ self) in
    let response := fileaudit.set_req_id (req_id request) response in
    let response := fileaudit.set_status "success" response in
    {| rpc_status := grpc.Status_OK; response := response; node := self;
       effects := sent |}.

(** *** BlockChainServiceImpl *)

(** Lines 200-208. *)
Definition WhisperAuditRequest_json (request : FileAudit) : Json.json :=
  let j := [] in
  let j := Json.assign "access_type" (Json.Jstring (access_type request)) j in
  let j := Json.assign "file_info"
             (Json.init [("file_id", Json.Jstring (file_id (file_info request)));
                         ("file_name", Json.Jstring (file_name (file_info request)))]) j in
  let j := Json.assign "req_id" (Json.Jstring (req_id request)) j in
  let j := Json.assign "timestamp" (Json.Jinteger (timestamp request)) j in
  let j := Json.assign "user_info"
             (Json.init [("user_id", Json.Jstring (user_id (user_info request)));
                         ("user_name", Json.Jstring (user_name (user_info request)))]) j in
  Json.Jobject j.

Definition WhisperAuditRequest_payload (request : FileAudit) : string :=
  Json.dump (WhisperAuditRequest_json request).

Definition WhisperAuditRequest (self : Node) (request : FileAudit)
  : Outcome WhisperResponse.t :=
  let response := WhisperResponse.default in
  let payload2 := WhisperAuditRequest_payload request in
  if negb (VerifySignature payload2 (signature request) (public_key request))
  then
    {| rpc_status := {| grpc.error_code := grpc.INVALID_ARGUMENT;
                        grpc.error_message := "Invalid signature in gossiped audit" |};
       response := response; node := self; effects := [] |}
  else
    let self := with_mempool (MempoolManager.Append request (mempool_ self)) self in
    let response := WhisperResponse.set_status "success" response in
    {| rpc_status := grpc.Status_OK; response := response; node := self;
       effects := [] |}.

(** Lines 245-257: the text hashed into the Merkle leaf of audit [a]. *)
Definition ProposeBlock_leaf_json (a : FileAudit) : Json.json :=
  let j := [] in
  let j := Json.assign "access_type" (Json.Jstring (access_type a)) j in
  let j := Json.assign "file_info"
             (Json.init [("file_id", Json.Jstring (file_id (file_info a)));
                         ("file_name", Json.Jstring (file_name (file_info a)))]) j in
  let j := Json.assign "req_id" (Json.Jstring (req_id a)) j in
  let j := Json.assign "timestamp" (Json.Jinteger (timestamp a)) j in
  let j := Json.assign "user_info"
             (Json.init [("user_id", Json.Jstring (user_id (user_info a)));
                         ("user_name", Json.Jstring (user_name (user_info a)))]) j in
  Json.Jobject j.

Definition ProposeBlock_leaf_payload (a : FileAudit) : string :=
  Json.dump (ProposeBlock_leaf_json a).

Definition ProposeBlock_leafs (blk : blockchain.Block) : list string :=
  fold_left (fun leafs a => leafs ++ [SHA256Hex (ProposeBlock_leaf_payload a)])
            (blockchain.audits blk) [].

Definition ProposeBlock (self : Node) (blk : blockchain.Block)
  : Outcome BlockVoteResponse.t :=
  let resp := BlockVoteResponse.default in
  let leafs := ProposeBlock_leafs blk in
  if negb (String.eqb (ComputeMerkleRoot leafs) (blockchain.merkle_root blk))
  then
    let resp := BlockVoteResponse.set_vote false resp in
    let resp := BlockVoteResponse.set_status "failure" resp in
    let resp := BlockVoteResponse.set_error_message "bad merkle_root" resp in
    {| rpc_status := grpc.Status_OK; response := resp; node := self;
       effects := [] |}
  else if negb (String.eqb (blockchain.previous_hash blk)
                           (ChainManager.getLastHash (chain_ self)))
  then
    let resp := BlockVoteResponse.set_vote false resp in
    let resp := BlockVoteResponse.set_status "failure" resp in
    let resp := BlockVoteResponse.set_error_message "bad previous_hash" resp in
    {| rpc_status := grpc.Status_OK; response := resp; node := self;
       effects := [] |}
  else
    let resp := BlockVoteResponse.set_vote true resp in
    let resp := BlockVoteResponse.set_status "success" resp in
    {| rpc_status := grpc.Status_OK; response := resp; node := self;
       effects := [] |}.

Definition block_path (id : Z) : string :=
  "../blocks/block_" +:+ to_string id +:+ ".json".

(** Lines 346-351. *)
Definition CommitBlock_meta (blk : blockchain.Block) : ChainManager.BlockMeta :=
  {| ChainManager.id := blockchain.id blk;
     ChainManager.hash := blockchain.hash blk;
     ChainManager.previous_hash := blockchain.previous_hash blk;
     ChainManager.merkle_root := blockchain.merkle_root blk |}.

Definition CommitBlock (self : Node) (blk : blockchain.Block)
  : Outcome BlockCommitResponse.t :=
  let resp := BlockCommitResponse.default in
  let meta := CommitBlock_meta blk in
  (* chain_.append(meta); the call is a statement, its result is dropped *)
  let self := with_chain (snd (ChainManager.append meta (chain_ self))) self in
  let ids := fold_left (fun ids a => ids ++ [req_id a]) (blockchain.audits blk) [] in
  let self := with_mempool (MempoolManager.RemoveBatch ids (mempool_ self)) self in
  match FileSystem.create_directories "../blocks" (disk self) with
  | inl what =>
      (* catch (const std::exception&) *)
      let resp := BlockCommitResponse.set_status "failure" resp in
      let resp := BlockCommitResponse.set_error_message
                    "exception writing block file" resp in
      {| rpc_status := grpc.Status_OK; response := resp; node := self;
         effects := [] |}
  | inr d =>
      let self := with_disk d self in
      let block_json := MessageToJsonString blk in
      let path := block_path (blockchain.id blk) in
      match FileSystem.ofstream path (disk self) with
      | None =>
          let resp := BlockCommitResponse.set_status "failure" resp in
          let resp := BlockCommitResponse.set_error_message
                        "could not write block file" resp in
          {| rpc_status := grpc.Status_OK; response := resp; node := self;
             effects := [] |}
      | Some d =>
          let self := with_disk (FileSystem.write path block_json d) self in
          let resp := BlockCommitResponse.set_status "success" resp in
          {| rpc_status := grpc.Status_OK; response := resp; node := self;
             effects := [] |}
      end
  end.

Definition GetBlock (self : Node) (req : GetBlockRequest.t)
  : Outcome GetBlockResponse.t :=
  let resp := GetBlockResponse.default in
  let id := GetBlockRequest.id req in
  if id >? ChainManager.getLastID (chain_ self) then
    let resp := GetBlockResponse.set_status "failure" resp in
    let resp := GetBlockResponse.set_error_message "block id out of range" resp in
    {| rpc_status := grpc.Status_OK; response := resp; node := self;
       effects := [] |}
  else
    let path := block_path id in
    match FileSystem.ifstream path (disk self) with
    | None =>
        let resp := GetBlockResponse.set_status "failure" resp in
        let resp := GetBlockResponse.set_error_message
                      "could not open block file" resp in
        {| rpc_status := grpc.Status_OK; response := resp; node := self;
           effects := [] |}
    | Some json =>
        match JsonStringToMessage json with
        | inl err =>
            let resp := GetBlockResponse.set_status "failure" resp in
            let resp := GetBlockResponse.set_error_message
                          ("JSON parse error: " +:+ err) resp in
            {| rpc_status := grpc.Status_OK; response := resp; node := self;
               effects := [] |}
        | inr blk =>
            let resp := GetBlockResponse.set_block blk resp in
            let resp := GetBlockResponse.set_status "success" resp in
            {| rpc_status := grpc.Status_OK; response := resp; node := self;
               effects := [] |}
        end
    end.

Definition SendHeartbeat (now : Z) (self : Node) (req : HeartbeatRequest.t)
  : Outcome HeartbeatResponse.t :=
  let resp := HeartbeatResponse.default in
  let self :=
    with_hb_table
      (HeartbeatTable.update now
         (HeartbeatRequest.from_address req)
         (HeartbeatRequest.current_leader_address req)
         (HeartbeatRequest.latest_block_id req)
         (HeartbeatRequest.mem_pool_size req)
         (hb_table_ self)) self in
  let self :=
    if String.eqb (ElectionState.getLeader (state_ self)) EmptyString
       && negb (String.eqb (HeartbeatRequest.current_leader_address req) EmptyString)
    then with_state (ElectionState.setLeader
                       (HeartbeatRequest.current_leader_address req)
                       (state_ self)) self
    else self in
  let resp := HeartbeatResponse.set_status "success" resp in
  {| rpc_status := grpc.Status_OK; response := resp; node := self;
     effects := [] |}.

(** Lines 465-472: the first entry of the snapshot whose sender is the
    candidate gives its stats; both stay 0 when there is none. *)
Fixpoint candidate_stats (candidate : string)
         (entries : list HeartbeatTable.HeartbeatEntry) : Z * Z :=
  match entries with
  | [] => (0, 0)
  | e :: rest =>
      if String.eqb (HeartbeatTable.from_address e) candidate
      then (HeartbeatTable.latest_block_id e, HeartbeatTable.mem_pool_size e)
      else candidate_stats candidate rest
  end.

Definition TriggerElection (self : Node) (req : TriggerElectionRequest.t)
  : Outcome TriggerElectionResponse.t :=
  let resp := TriggerElectionResponse.default in
  let candidate := TriggerElectionRequest.address req in
  let '(cand_blocks, cand_pool) :=
    candidate_stats candidate (HeartbeatTable.all (hb_table_ self)) in
  let my_blocks := ChainManager.getLastID (chain_ self) in
  let my_pool :=
    to_int64 (Z.of_nat (length (MempoolManager.LoadAll (mempool_ self)))) in
  let vote_yes := false in
  let '(vote_yes, self) :=
    if (cand_blocks >? my_blocks)
       || ((cand_blocks =? my_blocks) && (cand_pool >? my_pool))
       || ((cand_blocks =? my_blocks) && (cand_pool =? my_pool)
           && string_gt candidate (self_addr_ self))
    then (true, with_state (ElectionState.setVotedFor candidate (state_ self)) self)
    else (vote_yes, self) in
  let resp := TriggerElectionResponse.set_vote vote_yes resp in
  let resp := TriggerElectionResponse.set_term 0 resp in
  let resp := TriggerElectionResponse.set_status "success" resp in
  {| rpc_status := grpc.Status_OK; response := resp; node := self;
     effects := [] |}.

Definition NotifyLeadership (self : Node) (req : NotifyLeadershipRequest.t)
  : Outcome NotifyLeadershipResponse.t :=
  let resp := NotifyLeadershipResponse.default in
  let self := with_state (ElectionState.setLeader
                            (NotifyLeadershipRequest.address req)
                            (state_ self)) self in
  let resp := NotifyLeadershipResponse.set_status "success" resp in
  {| rpc_status := grpc.Status_OK; response := resp; node := self;
     effects := [] |}.

End Server.

(** ** The specification's vocabulary *)

(** Lexicographic order on byte strings: a proper prefix comes first,
    otherwise the first differing byte decides. *)
Inductive lex_lt : string -> string -> Prop :=
| lex_lt_prefix c s : lex_lt EmptyString (String c s)
| lex_lt_head c1 c2 s1 s2 :
    (N_of_ascii c1 < N_of_ascii c2)%N -> lex_lt (String c1 s1) (String c2 s2)
| lex_lt_tail c s1 s2 : lex_lt s1 s2 -> lex_lt (String c s1) (String c s2).

(** The block file cannot be created: the directory cannot be made or the
    file cannot be opened for writing.  These are the two failures that
    [CommitBlock] looks for. *)
Definition cannot_create (d : FileSystem.t) : Prop :=
  FileSystem.mkdir_error d <> None \/ FileSystem.read_only d = true.

(** The text of a block does not reach the disk: the file cannot be
    created, or it is created and the write to it stores nothing. *)
Definition disk_fails (d : FileSystem.t) : Prop :=
  cannot_create d \/ FileSystem.full d = true.

(** The stats a voter holds about [candidate]: those of its entry in the
    heartbeat table, zero blocks and an empty pool when it has none. *)
Definition heartbeat_stats (tbl : HeartbeatTable.t) (candidate : string)
  : Z * Z :=
  match tbl !! candidate with
  | Some i => (HeartbeatTable.blocks i, HeartbeatTable.pool i)
  | None => (0, 0)
  end.

Module CanonicalSpec.
Import common Json.

(** The five signed fields of §3, in the order the data model lists them;
    [signature] and [public_key] are left out. *)
Definition signed_fields (a : FileAudit) : json :=
  Jobject
    [("req_id", Jstring (req_id a));
     ("timestamp", Jinteger (timestamp a));
     ("access_type", Jstring (access_type a));
     ("file_info", Jobject [("file_id", Jstring (file_id (file_info a)));
                            ("file_name", Jstring (file_name (file_info a)))]);
     ("user_info", Jobject [("user_id", Jstring (user_id (user_info a)));
                            ("user_name", Jstring (user_name (user_info a)))])].

Fixpoint insert_by_key (kv : string * json) (ms : list (string * json))
  : list (string * json) :=
  match ms with
  | [] => [kv]
  | kv' :: rest =>
      if String.leb (fst kv) (fst kv') then kv :: ms
      else kv' :: insert_by_key kv rest
  end.

Definition sort_members (sort_keys : json -> json)
  : list (string * json) -> list (string * json) :=
  fix go (ms : list (string * json)) : list (string * json) :=
    match ms with
    | [] => []
    | (k, v) :: rest => insert_by_key (k, sort_keys v) (go rest)
    end.

(** Every object, nested ones included, gets its keys in lexicographic
    order. *)
Fixpoint sort_keys (j : json) : json :=
  match j with
  | Jobject ms => Jobject (sort_members sort_keys ms)
  | _ => j
  end.


(** JSON text as RFC 8259 has it, written here without reference to the
    serializer of the code.  Inside a string literal the quote, the
    backslash and the control characters are escaped: with the two-character
    form where the RFC has one, and with [\u00xx] (lower-case digits)
    otherwise. *)
Definition short_escape (c : ascii) : option ascii :=
  match c with
  | "034"%char => Some "034"%char
  | "092"%char => Some "092"%char
  | "008"%char => Some "b"%char
  | "012"%char => Some "f"%char
  | "010"%char => Some "n"%char
  | "013"%char => Some "r"%char
  | "009"%char => Some "t"%char
  | _ => None
  end.

Definition lower_hex (n : N) : ascii :=
  default "0"%char (String.get (N.to_nat n) "0123456789abcdef").

Definition escape_char (c : ascii) : string :=
  match short_escape c with
  | Some e => String "092" (String e EmptyString)
  | None =>
      if (N_of_ascii c <? 32)%N then
        String "092" (String "u" (String "0" (String "0"
          (String (lower_hex (N_of_ascii c / 16))
             (String (lower_hex (N_of_ascii c mod 16)) EmptyString)))))
      else String c EmptyString
  end.

Fixpoint escape (s : string) : string :=
  match s with
  | EmptyString => EmptyString
  | String c rest => escape_char c +:+ escape rest
  end.

Definition quoted (s : string) : string :=
  String "034" (escape s) +:+ String "034" EmptyString.

(** A member is its quoted key, a colon and the text of its value; an
    object is its members between braces, separated by commas.  Nothing
    else is written: no blank, no line break. *)
Definition member (key text : string) : string :=
  quoted key +:+ ":" +:+ text.

Definition object (members : list string) : string :=
  "{" +:+ String.concat "," members +:+ "}".

Fixpoint render (j : json) : string :=
  match j with
  | Jstring s => quoted s
  | Jinteger n => to_string n
  | Jobject ms => object (map (fun kv => member (fst kv) (render (snd kv))) ms)
  end.

(** §4.1: the object of the signed fields with its keys sorted, written
    without insignificant white space. *)
Definition canonical_encoding (a : FileAudit) : string :=
  render (sort_keys (signed_fields a)).
End CanonicalSpec.

(** A scanner for JSON texts that knows where string literals begin and end;
    it answers [None] at a blank, tab or line break outside a literal, and
    otherwise the mode it stops in. *)
Module Lexer.





End Lexer.

(** The gRPC error a handler answers instead of a response. *)
Definition InvalidArgument (message : string) : grpc.Status :=
  {| grpc.error_code := grpc.INVALID_ARGUMENT; grpc.error_message := message |}.

(** Stand-ins for the external libraries, for running the handlers on
    concrete requests. *)
Module TestDoubles.
(** A verifier that accepts exactly the signatures that repeat the digest of
    the signed text under a key that is not empty. *)
#[local] Instance digest_echo : OpenSSL := {
  EVP_PKEY := string;
  BIO_read_base64 b64 := (Z.of_nat (String.length b64), b64);
  PEM_read_bio_PUBKEY pem :=
    if String.eqb pem EmptyString then None else Some pem;
  EVP_DigestVerify pkey data sig :=
    if String.eqb sig (SHA256Hex data) then 1 else 0
}.

#[local] Instance block_id_only : ProtobufJson := {
  MessageToJsonString blk := "{id:" +:+ to_string (blockchain.id blk) +:+ "}";
  JsonStringToMessage text := inl ("unsupported: " +:+ text)
}.

(** Sample JSON texts are written with an apostrophe where the text has
    the quotation mark. *)
Fixpoint json_text (s : string) : string :=
  match s with
  | EmptyString => EmptyString
  | String c rest =>
      String (if (N_of_ascii c =? 39)%N then "034"%char else c) (json_text rest)
  end.

Import common.
Definition r1_unsigned : FileAudit :=
  {| req_id := "r1"; timestamp := 1; access_type := "read";
     file_info := {| file_id := "f1"; file_name := "a.txt" |};
     user_info := {| user_id := "u1"; user_name := "alice" |};
     signature := EmptyString; public_key := "test-key" |}.

Definition sign (a : FileAudit) : FileAudit :=
  set_signature (SHA256Hex (CanonicalSpec.canonical_encoding a)) a.

Definition r1 : FileAudit := Eval vm_compute in sign r1_unsigned.

(** The same audit with the first character of the signature changed. *)
Definition r1_forged : FileAudit :=
  set_signature
    ("4" +:+ String.substring 1 63 (signature r1)) r1.

(** A network on which the first peer misses the deadline and every other
    call is refused. *)
Definition bad_network : Network :=
  fun i _ _ =>
    match i with
    | O => ({| grpc.error_code := grpc.DEADLINE_EXCEEDED;
               grpc.error_message := "Deadline Exceeded" |},
            WhisperResponse.default)
    | _ => ({| grpc.error_code := grpc.UNAVAILABLE;
               grpc.error_message := "failed to connect to all addresses" |},
            WhisperResponse.default)
    end.

Definition GENESIS : string :=
  "0000000000000000000000000000000000000000000000000000000000000000".

Definition empty_disk : FileSystem.t :=
  {| FileSystem.files := ∅; FileSystem.read_only := false;
     FileSystem.mkdir_error := None; FileSystem.full := false |}.

(** A disk on which [../blocks] cannot be created, one on which no file
    can be opened for writing, and one with no space left. *)
Definition no_directory_disk : FileSystem.t :=
  {| FileSystem.files := ∅; FileSystem.read_only := false;
     FileSystem.mkdir_error :=
       Some "filesystem error: cannot create directories: Permission denied";
     FileSystem.full := false |}.

Definition read_only_disk : FileSystem.t :=
  {| FileSystem.files := ∅; FileSystem.read_only := true;
     FileSystem.mkdir_error := None; FileSystem.full := false |}.

Definition full_disk : FileSystem.t :=
  {| FileSystem.files := ∅; FileSystem.read_only := false;
     FileSystem.mkdir_error := None; FileSystem.full := true |}.

Definition fresh_node : Node :=
  {| gossip_stubs_ := ["10.0.0.2:50051"; "10.0.0.3:50051"];
     mempool_ := [];
     chain_ := {| ChainManager.genesis := GENESIS; ChainManager.index := [] |};
     hb_table_ := ∅;
     state_ := {| ElectionState.leader_address := EmptyString;
                  ElectionState.voted_for := EmptyString |};
     self_addr_ := "10.0.0.1:50051";
     disk := empty_disk |}.

(** The first block, holding [r1], and a block that does not extend the
    empty chain. *)
Definition block0 : blockchain.Block :=
  {| blockchain.id := 0; blockchain.hash := "h0";
     blockchain.previous_hash := GENESIS;
     blockchain.merkle_root := signature r1;
     blockchain.audits := [r1] |}.

Definition stray_block : blockchain.Block :=
  {| blockchain.id := 7; blockchain.hash := "h7";
     blockchain.previous_hash := "ffff";
     blockchain.merkle_root := signature r1;
     blockchain.audits := [r1] |}.

(** The fresh node after [r1] was admitted. *)
Definition node_with_r1 : Node := with_mempool [r1] fresh_node.

(** A voter that heard of a peer with an empty chain and an empty pool. *)
Definition node_with_peer : Node :=
  with_hb_table
    (HeartbeatTable.update 1000 "10.0.0.2:50051" EmptyString (-1) 0 ∅)
    fresh_node.
End TestDoubles.

(** ** Reading JSON text back *)

Module Decode.
Definition is_digit (c : ascii) : bool :=
  let n := N_of_ascii c in (48 <=? n)%N && (n <=? 57)%N.

Definition hex_value (c : ascii) : option N :=
  let n := N_of_ascii c in
  if (48 <=? n)%N && (n <=? 57)%N then Some (n - 48)%N
  else if (97 <=? n)%N && (n <=? 102)%N then Some (n - 87)%N
  else None.

(** The first byte of the inside of a string literal, with what follows it:
    the inverse of [Json.escape_byte].  The closing quote and a truncated or
    unknown escape give [None]. *)
Definition unescape (s : string) : option (ascii * string) :=
  match s with
  | EmptyString => None
  | String c rest =>
      if (N_of_ascii c =? 34)%N then None
      else if (N_of_ascii c =? 92)%N then
        match rest with
        | String e rest' =>
            let byte n := Some (ascii_of_N n, rest') in
            if (N_of_ascii e =? 98)%N then byte 8%N
            else if (N_of_ascii e =? 116)%N then byte 9%N
            else if (N_of_ascii e =? 110)%N then byte 10%N
            else if (N_of_ascii e =? 102)%N then byte 12%N
            else if (N_of_ascii e =? 114)%N then byte 13%N
            else if (N_of_ascii e =? 34)%N then byte 34%N
            else if (N_of_ascii e =? 92)%N then byte 92%N
            else if (N_of_ascii e =? 117)%N then
              match rest' with
              | String h1 (String h2 (String h3 (String h4 rest''))) =>
                  match hex_value h1, hex_value h2, hex_value h3, hex_value h4 with
                  | Some 0%N, Some 0%N, Some v3, Some v4 =>
                      Some (ascii_of_N (v3 * 16 + v4), rest'')
                  | _, _, _, _ => None
                  end
              | _ => None
              end
            else None
        | EmptyString => None
        end
      else Some (c, rest)
  end.
End Decode.

(** The five fields of an audit that are signed. *)
Definition signed_part (a : common.FileAudit)
  : string * common.FileInfo * string * Z * common.UserInfo :=
  (common.access_type a, common.file_info a, common.req_id a,
   common.timestamp a, common.user_info a).

(** A node that handles heartbeats one after the other; each comes with the
    wall clock of its arrival. *)
Definition heartbeats (arrivals : list (Z * HeartbeatRequest.t)) (self : Node)
  : Node :=
  fold_left (fun n arrival => node (SendHeartbeat (fst arrival) n (snd arrival)))
            arrivals self.

(** The first leader that a sequence of heartbeats announces. *)
Fixpoint first_leader (arrivals : list (Z * HeartbeatRequest.t)) : string :=
  match arrivals with
  | [] => EmptyString
  | arrival :: rest =>
      if String.eqb (HeartbeatRequest.current_leader_address (snd arrival))
                    EmptyString
      then first_leader rest
      else HeartbeatRequest.current_leader_address (snd arrival)
  end.

(** More stand-ins and sample data. *)
Module MoreDoubles.
Import common.

Definition is_base64_char (c : ascii) : bool :=
  let n := N_of_ascii c in
  ((65 <=? n) && (n <=? 90) || (97 <=? n) && (n <=? 122)
   || (48 <=? n) && (n <=? 57) || (n =? 43) || (n =? 47) || (n =? 61))%N.

Fixpoint all_base64 (s : string) : bool :=
  match s with
  | EmptyString => true
  | String c rest => is_base64_char c && all_base64 rest
  end.

(** Like [TestDoubles.digest_echo], but reading gives no byte (length 0,
    the answer of libcrypto's base64 filter) on text with a character
    outside the base64 alphabet. *)
#[local] Instance strict_echo : OpenSSL := {
  EVP_PKEY := string;
  BIO_read_base64 b64 :=
    if all_base64 b64 then (Z.of_nat (String.length b64), b64)
    else (0, b64);
  PEM_read_bio_PUBKEY pem :=
    if String.eqb pem EmptyString then None else Some pem;
  EVP_DigestVerify pkey data sig :=
    if String.eqb sig (SHA256Hex data) then 1 else 0
}.

Definition r1_without_key : FileAudit :=
  set_public_key EmptyString TestDoubles.r1.

Definition r1_not_base64 : FileAudit :=
  set_signature "not base64!" TestDoubles.r1.

(** [TestDoubles.block0] with another id, no hash and the forged audit. *)
Definition forged_block : blockchain.Block :=
  {| blockchain.id := 99; blockchain.hash := EmptyString;
     blockchain.previous_hash := TestDoubles.GENESIS;
     blockchain.merkle_root := signature TestDoubles.r1;
     blockchain.audits := [TestDoubles.r1_forged] |}.

(** A second block with the id of [TestDoubles.block0]. *)
Definition block0_twin : blockchain.Block :=
  {| blockchain.id := 0; blockchain.hash := "h0-twin";
     blockchain.previous_hash := TestDoubles.GENESIS;
     blockchain.merkle_root := SHA256Hex EmptyString;
     blockchain.audits := [] |}.

Definition block_text (blk : blockchain.Block) : string :=
  "{id:" +:+ to_string (blockchain.id blk) +:+ ",hash:"
  +:+ blockchain.hash blk +:+ "}".

(** A JSON mapping that reads back the two sample blocks. *)
#[local] Instance sample_blocks : ProtobufJson := {
  MessageToJsonString := block_text;
  JsonStringToMessage text :=
    if String.eqb text (block_text TestDoubles.block0)
    then inr TestDoubles.block0
    else if String.eqb text (block_text block0_twin) then inr block0_twin
    else inl ("unsupported: " +:+ text)
}.

(** Two nodes with empty chains and pools that have heard of each other. *)
Definition node_a : Node :=
  with_hb_table
    (HeartbeatTable.update 1000 "10.0.0.2:50051" EmptyString (-1) 0 ∅)
    TestDoubles.fresh_node.

Definition node_b : Node :=
  {| gossip_stubs_ := ["10.0.0.1:50051"; "10.0.0.3:50051"];
     mempool_ := [];
     chain_ := chain_ TestDoubles.fresh_node;
     hb_table_ := HeartbeatTable.update 1000 "10.0.0.1:50051" EmptyString (-1) 0 ∅;
     state_ := state_ TestDoubles.fresh_node;
     self_addr_ := "10.0.0.2:50051";
     disk := TestDoubles.empty_disk |}.
End MoreDoubles.

(** * Properties *)

(** ** Known answers of the hash *)

Example SHA256Hex_empty :
  SHA256Hex EmptyString
  = "e3b0c44298fc1c149afbf4c8996fb92427ae41e4649b934ca495991b7852b855".
Proof. vm_compute. reflexivity. Qed.

Example SHA256Hex_abc :
  SHA256Hex "abc"
  = "ba7816bf8f01cfea414140de5dae2223b00361a396177a9cb410ff61f20015ad".
Proof. vm_compute. reflexivity. Qed.

Example SHA256Hex_two_blocks :
  SHA256Hex "abcdbcdecdefdefgefghfghighijhijkijkljklmklmnlmnomnopnopq"
  = "248d6a61d20638b8e5c026930c3e6039a33ce45964ff2167f6ecedd419db06c1".
Proof. vm_compute. reflexivity. Qed.

#[global] Opaque SHA256Hex.

(** ** The Merkle reduction *)

Lemma merkle_level_length_le (level : list string) :
  (length (merkle_level level) <= length level)%nat
  /\ forall x, (length (merkle_level (x :: level)) <= S (length level))%nat.
Proof.
  induction level as [|y rest [IH1 IH2]];
    [split; [| intros x]; cbn; lia |].
  split; [apply IH2 |]. intros x. cbn [merkle_level length]. lia.
Qed.

Lemma merkle_level_shrinks x y (rest : list string) :
  (length (merkle_level (x :: y :: rest)) <= S (length rest))%nat.
Proof.
  cbn [merkle_level length].
  pose proof (proj1 (merkle_level_length_le rest)). lia.
Qed.

(** The rounds [ComputeMerkleRoot] allows for are enough: more of them give
    the same root, so the reduction always ends on a single value. *)
Lemma merkle_reduce_fuel n : forall (level : list string) f1 f2,
  (length level <= n)%nat -> (n <= f1)%nat -> (n <= f2)%nat ->
  merkle_reduce f1 level = merkle_reduce f2 level.
Proof.
  induction n as [|n IH]; intros level f1 f2 Hlen H1 H2.
  - destruct level; [| cbn in Hlen; lia]. now destruct f1, f2.
  - destruct level as [|x [|y rest]]; [now destruct f1, f2 .. |].
    destruct f1 as [|f1]; [lia |]. destruct f2 as [|f2]; [lia |].
    cbn [merkle_reduce]. apply IH; try lia.
    pose proof (merkle_level_shrinks x y rest). cbn [length] in Hlen. lia.
Qed.

Lemma ComputeMerkleRoot_fuel (leaves : list string) fuel :
  (length leaves <= fuel)%nat ->
  merkle_reduce fuel leaves = ComputeMerkleRoot leaves.
Proof.
  intros H. unfold ComputeMerkleRoot.
  now apply (merkle_reduce_fuel (length leaves)).
Qed.

(** §4.3 on up to three leaves. *)
Example ComputeMerkleRoot_small (x y z : string) :
  ComputeMerkleRoot [] = SHA256Hex EmptyString
  /\ ComputeMerkleRoot [x] = x
  /\ ComputeMerkleRoot [x; y] = SHA256Hex (x +:+ y)
  /\ ComputeMerkleRoot [x; y; z]
     = SHA256Hex (SHA256Hex (x +:+ y) +:+ SHA256Hex (z +:+ z)).
Proof. repeat split. Qed.

(** ** The lexicographic order and [operator>] *)

Lemma ascii_compare_Eq c1 c2 : Ascii.compare c1 c2 = Eq -> c1 = c2.
Proof.
  unfold Ascii.compare. intros H%N.compare_eq_iff.
  rewrite <- (ascii_N_embedding c1), <- (ascii_N_embedding c2).
  now f_equal.
Qed.

Lemma compare_Gt_lex_lt a : forall b, String.compare a b = Gt <-> lex_lt b a.
Proof.
  induction a as [|c a IH]; intros [|d b]; simpl.
  - split; [discriminate | inversion 1].
  - split; [discriminate | inversion 1].
  - split; [constructor | reflexivity].
  - destruct (Ascii.compare c d) eqn:E.
    + apply ascii_compare_Eq in E as ->. rewrite IH. split.
      * now constructor.
      * inversion 1; subst; [lia | assumption].
    + unfold Ascii.compare in E. rewrite N.compare_lt_iff in E.
      split; [discriminate |]. inversion 1; subst; lia.
    + unfold Ascii.compare in E. rewrite N.compare_gt_iff in E.
      split; [intros _; now constructor | reflexivity].
Qed.

Lemma string_gt_spec a b : string_gt a b = true <-> lex_lt b a.
Proof.
  rewrite <- compare_Gt_lex_lt. unfold string_gt.
  destruct (String.compare a b); split; congruence.
Qed.

Ltac lex_lt_literal :=
  repeat first [ apply lex_lt_prefix
               | apply lex_lt_head; reflexivity
               | apply lex_lt_tail ].

(** ** JSON texts carry no white space between their tokens *)

Module LexerFacts.
Import Lexer Json.









End LexerFacts.

(** ** The canonical payload *)

(** The serializer of the code writes the text that RFC 8259 and §4.1
    describe. *)
Module RenderFacts.
Import Json CanonicalSpec.

Lemma append_assoc (a : string) : forall b c,
  (a +:+ b) +:+ c = a +:+ (b +:+ c).
Proof.
  induction a as [|x a IH]; intros b c; [reflexivity |].
  change (String x ((a +:+ b) +:+ c) = String x (a +:+ (b +:+ c))).
  now rewrite IH.
Qed.

Lemma escape_byte_char c : escape_byte c = escape_char c.
Proof. destruct c as [[] [] [] [] [] [] [] []]; vm_compute; reflexivity. Qed.

Lemma dump_escaped_escape s : dump_escaped s = escape s.
Proof.
  induction s as [|c s IH]; [reflexivity |].
  change (escape_byte c +:+ dump_escaped s = escape_char c +:+ escape s).
  now rewrite IH, escape_byte_char.
Qed.

Lemma dump_string_quoted s : dump_string s = quoted s.
Proof.
  unfold dump_string, quoted. rewrite dump_escaped_escape. reflexivity.
Qed.

Lemma dump_render : forall j, dump j = render j.
Proof.
  fix IH 1. intros [s | n | ms].
  - apply dump_string_quoted.
  - reflexivity.
  - change (dump (Jobject ms)) with ("{" +:+ dump_members dump ms +:+ "}").
    change (render (Jobject ms))
      with ("{" +:+ String.concat ","
                      (map (fun kv => member (fst kv) (render (snd kv))) ms)
            +:+ "}").
    assert (Hms : dump_members dump ms
                  = String.concat ","
                      (map (fun kv => member (fst kv) (render (snd kv))) ms)).
    { induction ms as [|[k v] rest IHrest]; [reflexivity |].
      destruct rest as [|kv rest].
      - change (dump_string k +:+ ":" +:+ dump v = member k (render v)).
        unfold member. now rewrite dump_string_quoted, IH.
      - change (dump_string k +:+ ":" +:+ dump v +:+ ","
                +:+ dump_members dump (kv :: rest)
                = member k (render v) +:+ ","
                  +:+ String.concat ","
                        (map (fun kv => member (fst kv) (render (snd kv)))
                             (kv :: rest))).
        rewrite <- IHrest. unfold member.
        rewrite dump_string_quoted, IH, !append_assoc. reflexivity. }
    now rewrite Hms.
Qed.
End RenderFacts.

Section Payload.
Import common.
Variable a : FileAudit.

Lemma SubmitAudit_json_canonical :
  SubmitAudit_json a = CanonicalSpec.sort_keys (CanonicalSpec.signed_fields a).
Proof. reflexivity. Qed.

Lemma WhisperAuditRequest_json_canonical :
  WhisperAuditRequest_json a
  = CanonicalSpec.sort_keys (CanonicalSpec.signed_fields a).
Proof. reflexivity. Qed.

Lemma ProposeBlock_leaf_json_canonical :
  ProposeBlock_leaf_json a
  = CanonicalSpec.sort_keys (CanonicalSpec.signed_fields a).
Proof. reflexivity. Qed.

Lemma SubmitAudit_payload_canonical :
  SubmitAudit_payload a = CanonicalSpec.canonical_encoding a.
Proof.
  unfold SubmitAudit_payload, CanonicalSpec.canonical_encoding.
  now rewrite RenderFacts.dump_render, SubmitAudit_json_canonical.
Qed.

Lemma WhisperAuditRequest_payload_canonical :
  WhisperAuditRequest_payload a = CanonicalSpec.canonical_encoding a.
Proof.
  unfold WhisperAuditRequest_payload, CanonicalSpec.canonical_encoding.
  now rewrite RenderFacts.dump_render, WhisperAuditRequest_json_canonical.
Qed.

Lemma ProposeBlock_leaf_payload_canonical :
  ProposeBlock_leaf_payload a = CanonicalSpec.canonical_encoding a.
Proof.
  unfold ProposeBlock_leaf_payload, CanonicalSpec.canonical_encoding.
  now rewrite RenderFacts.dump_render, ProposeBlock_leaf_json_canonical.
Qed.



End Payload.


(** The payload of the sample audit, and that of an audit whose fields hold
    a quotation mark, a backslash, a line break, a control character and a
    negative timestamp. *)
Example SubmitAudit_payload_r1 :
  SubmitAudit_payload TestDoubles.r1
  = TestDoubles.json_text
      "{'access_type':'read','file_info':{'file_id':'f1','file_name':'a.txt'},'req_id':'r1','timestamp':1,'user_info':{'user_id':'u1','user_name':'alice'}}".
Proof. vm_compute. reflexivity. Qed.

Example SubmitAudit_payload_escapes :
  SubmitAudit_payload
    {| common.req_id := String "034" (String "092" EmptyString);
       common.timestamp := -1700000000;
       common.access_type := String "010" (String "001" EmptyString);
       common.file_info := {| common.file_id := EmptyString;
                              common.file_name := "a b" |};
       common.user_info := {| common.user_id := String "009" EmptyString;
                              common.user_name := String "031" EmptyString |};
       common.signature := "s"; common.public_key := "k" |}
  = TestDoubles.json_text
      "{'access_type':'\n\u0001','file_info':{'file_id':'','file_name':'a b'},'req_id':'\'\\','timestamp':-1700000000,'user_info':{'user_id':'\t','user_name':'\u001f'}}".
Proof. vm_compute. reflexivity. Qed.

(** ** ProposeBlock *)

Lemma fold_left_push_back {A B} (f : A -> B) (l : list A) : forall acc,
  fold_left (fun acc x => acc ++ [f x]) l acc = acc ++ map f l.
Proof.
  induction l as [|x l IH]; intros acc; simpl.
  - now rewrite app_nil_r.
  - rewrite IH, <- app_assoc. reflexivity.
Qed.

(** The loop of lines 243-258 collects one leaf per audit, in the order of
    [audits]: the digest of the audit's canonical encoding. *)
Lemma ProposeBlock_leafs_map blk :
  ProposeBlock_leafs blk
  = map (fun a => SHA256Hex (CanonicalSpec.canonical_encoding a))
        (blockchain.audits blk).
Proof.
  unfold ProposeBlock_leafs. rewrite fold_left_push_back. cbn [app].
  apply map_ext. intros a. now rewrite ProposeBlock_leaf_payload_canonical.
Qed.

(** C1. [ProposeBlock] recomputes the Merkle root from the SHA-256 hex
    digests of the canonical encodings of the block's audits, in their
    order.  If it differs from [merkle_root] the answer is vote=false,
    status "failure", error "bad merkle_root"; otherwise, if
    [previous_hash] differs from [getLastHash()], it is vote=false, status
    "failure", error "bad previous_hash"; otherwise vote=true, status
    "success".  The call is answered with OK and changes nothing. *)
Theorem ProposeBlock_vote (self : Node) (blk : blockchain.Block) :
  let root :=
    ComputeMerkleRoot
      (map (fun a => SHA256Hex (CanonicalSpec.canonical_encoding a))
           (blockchain.audits blk)) in
  let out := ProposeBlock self blk in
  (root <> blockchain.merkle_root blk ->
   response out
   = {| BlockVoteResponse.vote := false;
        BlockVoteResponse.status := "failure";
        BlockVoteResponse.error_message := "bad merkle_root" |})
  /\ (root = blockchain.merkle_root blk ->
      blockchain.previous_hash blk <> ChainManager.getLastHash (chain_ self) ->
      response out
      = {| BlockVoteResponse.vote := false;
           BlockVoteResponse.status := "failure";
           BlockVoteResponse.error_message := "bad previous_hash" |})
  /\ (root = blockchain.merkle_root blk ->
      blockchain.previous_hash blk = ChainManager.getLastHash (chain_ self) ->
      response out
      = {| BlockVoteResponse.vote := true;
           BlockVoteResponse.status := "success";
           BlockVoteResponse.error_message := EmptyString |})
  /\ rpc_status out = grpc.Status_OK
  /\ node out = self
  /\ effects out = [].
Proof.
  cbv zeta. unfold ProposeBlock. rewrite ProposeBlock_leafs_map.
  set (root := ComputeMerkleRoot _).
  destruct (String.eqb_spec root (blockchain.merkle_root blk)) as [Hroot | Hroot];
    [destruct (String.eqb_spec (blockchain.previous_hash blk)
                               (ChainManager.getLastHash (chain_ self)))
       as [Hprev | Hprev] |];
    cbn [negb response rpc_status node effects];
    repeat split; intros; try reflexivity; contradiction.
Qed.

(** The three answers, on the empty chain. *)
Example ProposeBlock_scenarios :
  let good :=
    {| blockchain.id := 0; blockchain.hash := "h0";
       blockchain.previous_hash := TestDoubles.GENESIS;
       blockchain.merkle_root :=
         SHA256Hex (CanonicalSpec.canonical_encoding TestDoubles.r1);
       blockchain.audits := [TestDoubles.r1] |} in
  let bad_root :=
    {| blockchain.id := 0; blockchain.hash := "h0";
       blockchain.previous_hash := TestDoubles.GENESIS;
       blockchain.merkle_root := SHA256Hex EmptyString;
       blockchain.audits := [TestDoubles.r1] |} in
  let bad_prev :=
    {| blockchain.id := 1; blockchain.hash := "h1";
       blockchain.previous_hash := "ffff";
       blockchain.merkle_root := SHA256Hex EmptyString;
       blockchain.audits := [] |} in
  BlockVoteResponse.vote (response (ProposeBlock TestDoubles.fresh_node good))
  = true
  /\ BlockVoteResponse.error_message
       (response (ProposeBlock TestDoubles.fresh_node bad_root))
     = "bad merkle_root"
  /\ BlockVoteResponse.error_message
       (response (ProposeBlock TestDoubles.fresh_node bad_prev))
     = "bad previous_hash".
Proof. vm_compute. repeat split. Qed.

(** ** Admission of audits: SubmitAudit and WhisperAuditRequest *)

Section Admission.
Context `{crypto : OpenSSL}.
Import common.

Lemma gossip_calls (net : Network) (request : FileAudit) stubs : forall i,
  List.filter is_rpc (gossip net request i stubs)
  = map (fun stub => Rpc_WhisperAuditRequest stub kGossipTimeoutMs request)
        stubs.
Proof.
  induction stubs as [|stub rest IH]; intros i; [reflexivity |].
  cbn [gossip]. destruct (net i stub request) as [st wr].
  cbn [List.filter is_rpc map]. rewrite <- (IH (S i)).
  destruct (negb (grpc.ok st)); [destruct (grpc.error_code st) |];
    reflexivity.
Qed.

Lemma gossip_length (net : Network) (request : FileAudit) stubs : forall i,
  length (gossip net request i stubs) = (2 * length stubs)%nat.
Proof.
  induction stubs as [|stub rest IH]; intros i; [reflexivity |].
  cbn [gossip]. destruct (net i stub request) as [st wr].
  cbn [length]. rewrite (IH (S i)). lia.
Qed.

(** C4. When the signature of a submitted audit does not verify over the
    canonical encoding of its five signed fields, [SubmitAudit] answers
    InvalidArgument, "Invalid client signature"; the audit is not appended:
    the mempool, like the rest of the node, is unchanged, and nothing is
    sent to the peers. *)
Theorem SubmitAudit_rejects_forged (net : Network) (self : Node)
        (request : FileAudit) :
  VerifySignature (CanonicalSpec.canonical_encoding request)
                  (signature request) (public_key request) = false ->
  let out := SubmitAudit net self request in
  rpc_status out = InvalidArgument "Invalid client signature"
  /\ mempool_ (node out) = mempool_ self
  /\ node out = self
  /\ effects out = [].
Proof.
  intros Hsig. cbv zeta. unfold SubmitAudit.
  rewrite SubmitAudit_payload_canonical, Hsig. cbn. auto.
Qed.

(** C5. When the signature verifies, the client receives OK with
    [{req_id, "success"}], whatever the peers answer: the network only
    shows in the log lines.  One call goes to every stub, with the 200 ms
    deadline, and the audit is in the mempool. *)
Theorem SubmitAudit_reply_ignores_gossip (net : Network) (self : Node)
        (request : FileAudit) :
  VerifySignature (CanonicalSpec.canonical_encoding request)
                  (signature request) (public_key request) = true ->
  let out := SubmitAudit net self request in
  rpc_status out = grpc.Status_OK
  /\ response out = {| fileaudit.req_id := req_id request;
                       fileaudit.status := "success" |}
  /\ node out
     = with_mempool (MempoolManager.Append request (mempool_ self)) self
  /\ List.filter is_rpc (effects out)
     = map (fun stub => Rpc_WhisperAuditRequest stub 200 request)
           (gossip_stubs_ self).
Proof.
  intros Hsig. cbv zeta. unfold SubmitAudit.
  rewrite SubmitAudit_payload_canonical, Hsig.
  cbn [negb rpc_status response node effects].
  repeat split. apply gossip_calls.
Qed.

(** C7. [WhisperAuditRequest] never calls a peer.  With a signature that
    verifies its one effect on the node is the append of the audit to the
    mempool, and the answer is OK, "success"; with one that does not, the
    answer is InvalidArgument and the node, the mempool included, is
    unchanged. *)
Theorem WhisperAuditRequest_admits_silently (self : Node)
        (request : FileAudit) :
  let verified :=
    VerifySignature (CanonicalSpec.canonical_encoding request)
                    (signature request) (public_key request) in
  let out := WhisperAuditRequest self request in
  effects out = []
  /\ (verified = true ->
      rpc_status out = grpc.Status_OK
      /\ response out = {| WhisperResponse.status := "success" |}
      /\ node out
         = with_mempool (MempoolManager.Append request (mempool_ self)) self)
  /\ (verified = false ->
      rpc_status out = InvalidArgument "Invalid signature in gossiped audit"
      /\ node out = self
      /\ mempool_ (node out) = mempool_ self).
Proof.
  cbv zeta. unfold WhisperAuditRequest.
  rewrite WhisperAuditRequest_payload_canonical.
  destruct (VerifySignature _ _ _); cbn; repeat split; congruence.
Qed.
End Admission.

Lemma SubmitAudit_rejects_forged_witness :
  let out :=
    SubmitAudit (crypto := TestDoubles.digest_echo) TestDoubles.bad_network
                TestDoubles.fresh_node TestDoubles.r1_forged in
  VerifySignature (crypto := TestDoubles.digest_echo)
    (CanonicalSpec.canonical_encoding TestDoubles.r1_forged)
    (common.signature TestDoubles.r1_forged)
    (common.public_key TestDoubles.r1_forged) = false
  /\ rpc_status out = InvalidArgument "Invalid client signature"
  /\ mempool_ (node out) = [].
Proof.
  assert (H : VerifySignature (crypto := TestDoubles.digest_echo)
                (CanonicalSpec.canonical_encoding TestDoubles.r1_forged)
                (common.signature TestDoubles.r1_forged)
                (common.public_key TestDoubles.r1_forged) = false)
    by (vm_compute; reflexivity).
  split; [exact H |].
  destruct (SubmitAudit_rejects_forged (crypto := TestDoubles.digest_echo)
              TestDoubles.bad_network TestDoubles.fresh_node
              TestDoubles.r1_forged H) as (Hst & Hpool & _).
  split; [exact Hst | exact Hpool].
Defined.

Lemma SubmitAudit_reply_ignores_gossip_witness :
  let out :=
    SubmitAudit (crypto := TestDoubles.digest_echo) TestDoubles.bad_network
                TestDoubles.fresh_node TestDoubles.r1 in
  VerifySignature (crypto := TestDoubles.digest_echo)
    (CanonicalSpec.canonical_encoding TestDoubles.r1)
    (common.signature TestDoubles.r1)
    (common.public_key TestDoubles.r1) = true
  /\ response out = {| fileaudit.req_id := "r1"; fileaudit.status := "success" |}
  /\ length (mempool_ (node out)) = 1%nat.
Proof.
  assert (H : VerifySignature (crypto := TestDoubles.digest_echo)
                (CanonicalSpec.canonical_encoding TestDoubles.r1)
                (common.signature TestDoubles.r1)
                (common.public_key TestDoubles.r1) = true)
    by (vm_compute; reflexivity).
  split; [exact H |].
  destruct (SubmitAudit_reply_ignores_gossip (crypto := TestDoubles.digest_echo)
              TestDoubles.bad_network TestDoubles.fresh_node
              TestDoubles.r1 H) as (_ & Hresp & Hnode & _).
  split; [exact Hresp |]. cbv zeta. rewrite Hnode. reflexivity.
Defined.

(** The gossiped [r1] is admitted without a call; the forged one is not
    admitted. *)
Example WhisperAuditRequest_scenarios :
  let ok := WhisperAuditRequest (crypto := TestDoubles.digest_echo)
              TestDoubles.fresh_node TestDoubles.r1 in
  let ko := WhisperAuditRequest (crypto := TestDoubles.digest_echo)
              TestDoubles.fresh_node TestDoubles.r1_forged in
  (WhisperResponse.status (response ok) = "success"
   /\ mempool_ (node ok) = [TestDoubles.r1] /\ effects ok = [])
  /\ (grpc.error_code (rpc_status ko) = grpc.INVALID_ARGUMENT
      /\ mempool_ (node ko) = [] /\ effects ko = []).
Proof. vm_compute. repeat split. Qed.

(** ** TriggerElection *)

Module ElectionFacts.
Import HeartbeatTable.

Lemma candidate_stats_absent c (l : list (string * info)) :
  c ∉ l.*1 -> candidate_stats c (entry <$> l) = (0, 0).
Proof.
  induction l as [|[k v] l IH]; intros Hc; [reflexivity |].
  cbn in *. apply not_elem_of_cons in Hc as [Hne Hc].
  destruct (String.eqb_spec k c); [congruence | now apply IH].
Qed.

Lemma candidate_stats_found c v (l : list (string * info)) :
  NoDup l.*1 -> (c, v) ∈ l ->
  candidate_stats c (entry <$> l) = (blocks v, pool v).
Proof.
  induction l as [|[k w] l IH]; intros Hnd Hin.
  - now apply elem_of_nil in Hin.
  - cbn in *. apply NoDup_cons in Hnd as [Hk Hnd].
    apply elem_of_cons in Hin as [Heq | Hin].
    + injection Heq as -> ->. now rewrite String.eqb_refl.
    + destruct (String.eqb_spec k c) as [-> | Hne]; [| now apply IH].
      exfalso. apply Hk. apply list_elem_of_fmap. now exists (c, v).
Qed.

(** The loop over [all()] finds the table's entry of the candidate. *)
Lemma candidate_stats_all (tbl : t) c :
  candidate_stats c (all tbl) = heartbeat_stats tbl c.
Proof.
  unfold heartbeat_stats, all.
  destruct (tbl !! c) as [v |] eqn:E.
  - apply candidate_stats_found.
    + apply NoDup_fst_map_to_list.
    + now apply elem_of_map_to_list.
  - apply candidate_stats_absent. intros Hin.
    apply list_elem_of_fmap in Hin as ([k v] & -> & Hin).
    apply elem_of_map_to_list in Hin. cbn in E. congruence.
Qed.
End ElectionFacts.

(** The stats read back are those of the sender's latest heartbeat. *)
Lemma SendHeartbeat_stats now (self : Node) (req : HeartbeatRequest.t) :
  heartbeat_stats (hb_table_ (node (SendHeartbeat now self req)))
                  (HeartbeatRequest.from_address req)
  = (HeartbeatRequest.latest_block_id req, HeartbeatRequest.mem_pool_size req).
Proof.
  unfold SendHeartbeat, heartbeat_stats, HeartbeatTable.update. cbn.
  destruct (_ && _); cbn; now rewrite lookup_insert_eq.
Qed.

Lemma to_int64_small n : 0 <= n < 2 ^ 63 -> to_int64 n = n.
Proof.
  intros H. unfold to_int64. rewrite Z.mod_small; lia.
Qed.

(** C6. The voter compares the candidate's stats, read from the candidate's
    entry of the heartbeat table, with its own ([my_blocks] is
    [getLastID()], [my_pool] the size of the mempool).  It votes yes exactly
    when the candidate has more blocks, or as many blocks and a larger pool,
    or the same of both and an address that is lexicographically greater
    than the voter's.  A yes records the candidate in [voted_for] and
    changes nothing else; a no changes nothing.  [term] is 0 either way. *)
Theorem TriggerElection_vote (self : Node) (req : TriggerElectionRequest.t) :
  let c := TriggerElectionRequest.address req in
  let cand_blocks := fst (heartbeat_stats (hb_table_ self) c) in
  let cand_pool := snd (heartbeat_stats (hb_table_ self) c) in
  let my_blocks := ChainManager.getLastID (chain_ self) in
  let my_pool := Z.of_nat (length (mempool_ self)) in
  let out := TriggerElection self req in
  my_pool < 2 ^ 63 ->
  (TriggerElectionResponse.vote (response out) = true <->
   cand_blocks > my_blocks
   \/ (cand_blocks = my_blocks /\ cand_pool > my_pool)
   \/ (cand_blocks = my_blocks /\ cand_pool = my_pool
       /\ lex_lt (self_addr_ self) c))
  /\ (TriggerElectionResponse.vote (response out) = true ->
      node out = with_state (ElectionState.setVotedFor c (state_ self)) self
      /\ ElectionState.getVotedFor (state_ (node out)) = c)
  /\ (TriggerElectionResponse.vote (response out) = false -> node out = self)
  /\ TriggerElectionResponse.term (response out) = 0
  /\ TriggerElectionResponse.status (response out) = "success"
  /\ rpc_status out = grpc.Status_OK.
Proof.
  cbv zeta. intros Hsize. unfold TriggerElection.
  rewrite ElectionFacts.candidate_stats_all.
  destruct (heartbeat_stats (hb_table_ self) (TriggerElectionRequest.address req))
    as [cand_blocks cand_pool].
  unfold MempoolManager.LoadAll. rewrite to_int64_small by lia.
  cbn [fst snd].
  set (my_blocks := ChainManager.getLastID (chain_ self)).
  set (my_pool := Z.of_nat (length (mempool_ self))).
  pose proof (string_gt_spec (TriggerElectionRequest.address req)
                             (self_addr_ self)) as Hgt.
  destruct (string_gt (TriggerElectionRequest.address req) (self_addr_ self));
    destruct (Z.gtb_spec cand_blocks my_blocks);
    destruct (Z.eqb_spec cand_blocks my_blocks);
    destruct (Z.gtb_spec cand_pool my_pool);
    destruct (Z.eqb_spec cand_pool my_pool);
    cbn; repeat split; intros; try congruence; try lia;
    try (right; right; repeat split; try lia; now apply Hgt);
    try (right; left; lia); try (left; lia).
  all: repeat match goal with
              | H : _ \/ _ |- _ => destruct H
              | H : _ /\ _ |- _ => destruct H
              end; try lia.
  all: match goal with
       | H : lex_lt _ _ |- _ => apply Hgt in H; discriminate
       end.
Qed.

Lemma TriggerElection_vote_witness :
  let req := {| TriggerElectionRequest.address := "10.0.0.2:50051" |} in
  let out := TriggerElection TestDoubles.node_with_peer req in
  Z.of_nat (length (mempool_ TestDoubles.node_with_peer)) < 2 ^ 63
  /\ heartbeat_stats (hb_table_ TestDoubles.node_with_peer) "10.0.0.2:50051"
     = (ChainManager.getLastID (chain_ TestDoubles.node_with_peer), 0)
  /\ TriggerElectionResponse.vote (response out) = true
  /\ ElectionState.getVotedFor (state_ (node out)) = "10.0.0.2:50051"
  /\ TriggerElectionResponse.term (response out) = 0.
Proof.
  assert (Hsize : Z.of_nat (length (mempool_ TestDoubles.node_with_peer))
                  < 2 ^ 63) by (vm_compute; reflexivity).
  destruct (TriggerElection_vote TestDoubles.node_with_peer
              {| TriggerElectionRequest.address := "10.0.0.2:50051" |} Hsize)
    as (Hvote & Hyes & _ & Hterm & _).
  assert (Hv : TriggerElectionResponse.vote
                 (response (TriggerElection TestDoubles.node_with_peer
                    {| TriggerElectionRequest.address := "10.0.0.2:50051" |}))
               = true).
  { apply Hvote. right. right. repeat split; try (vm_compute; reflexivity).
    cbn. lex_lt_literal. }
  cbv zeta. split; [exact Hsize |]. split; [vm_compute; reflexivity |].
  split; [exact Hv |]. split; [apply (Hyes Hv) | exact Hterm].
Defined.

(** The tie-break the other way round: with equal stats a candidate whose
    address is smaller than the voter's gets a no, and nothing is stored. *)
Example TriggerElection_smaller_address :
  let voter :=
    with_hb_table
      (HeartbeatTable.update 1000 "10.0.0.0:50051" EmptyString (-1) 0 ∅)
      TestDoubles.fresh_node in
  let out :=
    TriggerElection voter {| TriggerElectionRequest.address := "10.0.0.0:50051" |} in
  TriggerElectionResponse.vote (response out) = false
  /\ ElectionState.getVotedFor (state_ (node out)) = EmptyString.
Proof. vm_compute. split; reflexivity. Qed.

(** ** The chain index *)

Module ChainFacts.
Import ChainManager.

Lemma last_snoc {A} (l : list A) (x : A) :
  List.last (map Some (l ++ [x])) None = Some x.
Proof. rewrite map_app. cbn. apply last_last. Qed.

Lemma contiguous_last_id (c : t) :
  contiguous c -> getLastID c = Z.of_nat (length (index c)) - 1.
Proof.
  unfold contiguous, getLastID. destruct c as [g l]. cbn.
  destruct l as [|m0 l0] using rev_ind; [reflexivity |].
  intros H. rewrite last_snoc.
  rewrite map_app, length_app, Nat.add_1_r, seq_S, map_app in H. cbn in H.
  apply app_inj_tail in H as [_ H]. rewrite H, length_app. cbn. lia.
Qed.

Lemma contiguous_last_id_bound (c : t) : contiguous c -> -1 <= getLastID c.
Proof. intros H. rewrite (contiguous_last_id c H). lia. Qed.

Lemma contiguous_empty g : contiguous {| genesis := g; index := [] |}.
Proof. reflexivity. Qed.

(** [append] leaves a rejected index alone and puts an accepted summary at
    the end. *)
Lemma append_rejected m c :
  fst (append m c) = ChainBroken <-> ~ extends m c.
Proof.
  unfold append, extends.
  destruct (String.eqb_spec (previous_hash m) (getLastHash c));
    destruct (Z.eqb_spec (id m) (getLastID c + 1)); cbn;
    split; try discriminate; try tauto; intros H; exfalso; apply H; auto.
Qed.

Lemma append_rejected_same m c :
  fst (append m c) = ChainBroken -> snd (append m c) = c.
Proof.
  unfold append.
  destruct (negb _ || negb _); [reflexivity | discriminate].
Qed.

Lemma append_extends m c :
  extends m c ->
  append m c = (Appended, {| genesis := genesis c; index := index c ++ [m] |}).
Proof.
  intros [Hh Hi]. unfold append.
  rewrite Hh, Hi, String.eqb_refl, Z.eqb_refl. reflexivity.
Qed.

Lemma append_contiguous m c : contiguous c -> contiguous (snd (append m c)).
Proof.
  intros Hc. unfold append.
  destruct (String.eqb_spec (previous_hash m) (getLastHash c));
    destruct (Z.eqb_spec (id m) (getLastID c + 1)) as [Hid |]; cbn; auto.
  unfold contiguous in *. cbn.
  rewrite map_app, length_app, Nat.add_1_r, seq_S, map_app, Hc. cbn.
  rewrite Hid, (contiguous_last_id c Hc). do 2 f_equal. lia.
Qed.
End ChainFacts.

(** ** The mempool *)

Module MempoolFacts.
Import common MempoolManager.

Lemma existsb_eqb_In x (ids : list string) :
  existsb (String.eqb x) ids = true <-> In x ids.
Proof.
  rewrite existsb_exists. split.
  - intros (y & Hy & Heq). apply String.eqb_eq in Heq. now subst.
  - intros H. exists x. split; [assumption | apply String.eqb_refl].
Qed.

Lemma RemoveBatch_In a ids pool :
  In a (RemoveBatch ids pool) <-> In a pool /\ ~ In (req_id a) ids.
Proof.
  unfold RemoveBatch. rewrite filter_In, negb_true_iff.
  rewrite <- existsb_eqb_In. destruct (existsb _ ids); intuition congruence.
Qed.

Lemma RemoveBatch_removes ids pool id :
  In id ids -> ~ In id (map req_id (LoadAll (RemoveBatch ids pool))).
Proof.
  intros Hid Hin. unfold LoadAll in Hin.
  apply in_map_iff in Hin as (a & <- & Ha).
  apply RemoveBatch_In in Ha as [_ Hn]. contradiction.
Qed.

Lemma contains_In id pool :
  contains id pool = true <-> In id (map req_id pool).
Proof.
  unfold contains. rewrite existsb_exists, in_map_iff.
  split; intros (a & H1 & H2).
  - apply String.eqb_eq in H2. eauto.
  - exists a. split; [assumption | now apply String.eqb_eq].
Qed.

(** §4.4: at most one pending audit per request id. *)
Lemma Append_unique a pool :
  NoDup (map req_id pool) -> NoDup (map req_id (Append a pool)).
Proof.
  intros H. unfold Append. destruct (contains (req_id a) pool) eqn:E;
    [assumption |].
  rewrite map_app. cbn. apply NoDup_app. split; [assumption |].
  split; [| apply NoDup_singleton].
  intros id Hin Hone. apply list_elem_of_In in Hin.
  apply list_elem_of_singleton in Hone as ->.
  apply contains_In in Hin. congruence.
Qed.

(** §8.3: a second append of the same audit changes nothing. *)
Lemma Append_idempotent a pool : Append a (Append a pool) = Append a pool.
Proof.
  unfold Append at 2. destruct (contains (req_id a) pool) eqn:E.
  - unfold Append. now rewrite E.
  - unfold Append.
    assert (H : contains (req_id a) (pool ++ [a]) = true).
    { apply contains_In. rewrite map_app. apply in_or_app. right. now left. }
    now rewrite H, E.
Qed.
End MempoolFacts.

(** ** CommitBlock *)

Section Commit.
Context `{pbjson : ProtobufJson}.
Import common.

(** What every run of [CommitBlock] does before it touches the disk, and
    never takes back: the call of [append] and the pruning of the mempool. *)
Lemma CommitBlock_frame (self : Node) (blk : blockchain.Block) :
  let out := CommitBlock self blk in
  rpc_status out = grpc.Status_OK
  /\ effects out = []
  /\ chain_ (node out)
     = snd (ChainManager.append (CommitBlock_meta blk) (chain_ self))
  /\ mempool_ (node out)
     = MempoolManager.RemoveBatch (map req_id (blockchain.audits blk))
                                  (mempool_ self)
  /\ hb_table_ (node out) = hb_table_ self
  /\ state_ (node out) = state_ self.
Proof.
  cbv zeta. unfold CommitBlock. rewrite fold_left_push_back.
  unfold FileSystem.create_directories, FileSystem.ofstream,
    FileSystem.write. cbn.
  destruct (FileSystem.mkdir_error (disk self));
    [| destruct (FileSystem.read_only (disk self));
       [| destruct (FileSystem.full (disk self))]]; cbn; auto 10.
Qed.

Lemma CommitBlock_directory_error (self : Node) (blk : blockchain.Block) what :
  FileSystem.mkdir_error (disk self) = Some what ->
  let out := CommitBlock self blk in
  response out
  = {| BlockCommitResponse.status := "failure";
       BlockCommitResponse.error_message := "exception writing block file" |}
  /\ disk (node out) = disk self.
Proof.
  intros H. cbv zeta. unfold CommitBlock, FileSystem.create_directories.
  cbn. rewrite H. cbn. auto.
Qed.

Lemma CommitBlock_open_error (self : Node) (blk : blockchain.Block) :
  FileSystem.mkdir_error (disk self) = None ->
  FileSystem.read_only (disk self) = true ->
  let out := CommitBlock self blk in
  response out
  = {| BlockCommitResponse.status := "failure";
       BlockCommitResponse.error_message := "could not write block file" |}
  /\ disk (node out) = disk self.
Proof.
  intros H1 H2. cbv zeta.
  unfold CommitBlock, FileSystem.create_directories, FileSystem.ofstream.
  cbn. rewrite H1. cbn. rewrite H2. cbn. auto.
Qed.

(** The file is opened and written. *)
Lemma CommitBlock_written (self : Node) (blk : blockchain.Block) :
  FileSystem.mkdir_error (disk self) = None ->
  FileSystem.read_only (disk self) = false ->
  FileSystem.full (disk self) = false ->
  let out := CommitBlock self blk in
  response out
  = {| BlockCommitResponse.status := "success";
       BlockCommitResponse.error_message := EmptyString |}
  /\ FileSystem.files (disk (node out))
     = <[block_path (blockchain.id blk) := MessageToJsonString blk]>
         (FileSystem.files (disk self)).
Proof.
  intros H1 H2 H3. cbv zeta.
  unfold CommitBlock, FileSystem.create_directories, FileSystem.ofstream,
    FileSystem.write.
  cbn. rewrite H1. cbn. rewrite H2. cbn. rewrite H3. cbn.
  split; [reflexivity |].
  rewrite lookup_insert_eq. cbn. apply insert_insert_eq.
Qed.

(** The file is opened and the write to it stores nothing: lines 373-375
    never ask the stream, and line 383 answers "success". *)
Lemma CommitBlock_write_lost (self : Node) (blk : blockchain.Block) :
  FileSystem.mkdir_error (disk self) = None ->
  FileSystem.read_only (disk self) = false ->
  FileSystem.full (disk self) = true ->
  let out := CommitBlock self blk in
  response out
  = {| BlockCommitResponse.status := "success";
       BlockCommitResponse.error_message := EmptyString |}
  /\ FileSystem.files (disk (node out))
     = <[block_path (blockchain.id blk) := EmptyString]>
         (FileSystem.files (disk self)).
Proof.
  intros H1 H2 H3. cbv zeta.
  unfold CommitBlock, FileSystem.create_directories, FileSystem.ofstream,
    FileSystem.write.
  cbn. rewrite H1. cbn. rewrite H2. cbn. rewrite H3. cbn.
  split; reflexivity.
Qed.

(** The answer is "failure" exactly when the file cannot be created. *)
Lemma CommitBlock_status (self : Node) (blk : blockchain.Block) :
  BlockCommitResponse.status (response (CommitBlock self blk)) = "failure"
  <-> cannot_create (disk self).
Proof.
  unfold cannot_create.
  destruct (FileSystem.mkdir_error (disk self)) as [what |] eqn:E1.
  - destruct (CommitBlock_directory_error self blk what E1) as [-> _].
    cbn. split; [intros _; left; discriminate | reflexivity].
  - destruct (FileSystem.read_only (disk self)) eqn:E2.
    + destruct (CommitBlock_open_error self blk E1 E2) as [-> _].
      cbn. split; [intros _; now right | reflexivity].
    + destruct (FileSystem.full (disk self)) eqn:E3.
      * destruct (CommitBlock_write_lost self blk E1 E2 E3) as [-> _].
        cbn. split; [discriminate |]. intros [H | H]; congruence.
      * destruct (CommitBlock_written self blk E1 E2 E3) as [-> _].
        cbn. split; [discriminate |]. intros [H | H]; congruence.
Qed.

(** A disk on which nothing fails. *)
Lemma disk_works d :
  ~ disk_fails d ->
  FileSystem.mkdir_error d = None
  /\ FileSystem.read_only d = false
  /\ FileSystem.full d = false.
Proof.
  unfold disk_fails, cannot_create. intros H.
  destruct (FileSystem.mkdir_error d);
    [exfalso; apply H; left; left; discriminate |].
  destruct (FileSystem.read_only d);
    [exfalso; apply H; left; now right |].
  destruct (FileSystem.full d); [exfalso; apply H; now right |].
  auto.
Qed.

(** C2, as the code has it.  When the block does not extend the chain head,
    [append] rejects it and the index stays as it was, but [CommitBlock]
    does not look at that outcome: it prunes the mempool and goes on to the
    block file as for any other block.  It answers "failure" when the
    directory cannot be created or the file cannot be opened, and "success",
    with the block's text in the file, when creating, opening and writing
    all go through. *)
Theorem CommitBlock_ignores_rejection (self : Node) (blk : blockchain.Block) :
  fst (ChainManager.append (CommitBlock_meta blk) (chain_ self))
  = ChainManager.ChainBroken ->
  let out := CommitBlock self blk in
  chain_ (node out) = chain_ self
  /\ mempool_ (node out)
     = MempoolManager.RemoveBatch (map req_id (blockchain.audits blk))
                                  (mempool_ self)
  /\ (cannot_create (disk self) ->
      BlockCommitResponse.status (response out) = "failure"
      /\ disk (node out) = disk self)
  /\ (~ disk_fails (disk self) ->
      response out
      = {| BlockCommitResponse.status := "success";
           BlockCommitResponse.error_message := EmptyString |}
      /\ FileSystem.files (disk (node out))
         = <[block_path (blockchain.id blk) := MessageToJsonString blk]>
             (FileSystem.files (disk self))).
Proof.
  intros Hrej. cbv zeta.
  destruct (CommitBlock_frame self blk) as (_ & _ & Hchain & Hpool & _).
  split; [rewrite Hchain; now apply ChainFacts.append_rejected_same |].
  split; [exact Hpool |]. split.
  - intros Hfail. split; [now apply CommitBlock_status |].
    destruct (FileSystem.mkdir_error (disk self)) as [what |] eqn:E1.
    + apply (CommitBlock_directory_error self blk what E1).
    + destruct Hfail as [Hfail | Hro]; [congruence |].
      apply (CommitBlock_open_error self blk E1 Hro).
  - intros Hok. destruct (disk_works _ Hok) as (E1 & E2 & E3).
    apply (CommitBlock_written self blk E1 E2 E3).
Qed.

(** C3, as the code has it.  When the block file cannot be created the
    answer is "failure": with "could not write block file" when the file
    cannot be opened for writing, with "exception writing block file" when
    creating the directory raises.  Either way the node keeps what was done
    before: the chain is the one [append] left (with the new entry at its
    end whenever the block extended the head) and the block's audits are
    gone from the mempool; the disk is as before. *)
Theorem CommitBlock_failure_keeps_changes (self : Node)
        (blk : blockchain.Block) :
  cannot_create (disk self) ->
  let out := CommitBlock self blk in
  BlockCommitResponse.status (response out) = "failure"
  /\ (FileSystem.mkdir_error (disk self) = None ->
      BlockCommitResponse.error_message (response out)
      = "could not write block file")
  /\ (FileSystem.mkdir_error (disk self) <> None ->
      BlockCommitResponse.error_message (response out)
      = "exception writing block file")
  /\ chain_ (node out)
     = snd (ChainManager.append (CommitBlock_meta blk) (chain_ self))
  /\ (ChainManager.extends (CommitBlock_meta blk) (chain_ self) ->
      ChainManager.index (chain_ (node out))
      = ChainManager.index (chain_ self) ++ [CommitBlock_meta blk])
  /\ mempool_ (node out)
     = MempoolManager.RemoveBatch (map req_id (blockchain.audits blk))
                                  (mempool_ self)
  /\ (forall a, In a (blockchain.audits blk) ->
      ~ In (req_id a) (map req_id (mempool_ (node out))))
  /\ disk (node out) = disk self.
Proof.
  intros Hfail. cbv zeta.
  destruct (CommitBlock_frame self blk) as (_ & _ & Hchain & Hpool & _).
  split; [now apply CommitBlock_status |].
  assert (Hdisk :
    (FileSystem.mkdir_error (disk self) = None ->
     BlockCommitResponse.error_message (response (CommitBlock self blk))
     = "could not write block file")
    /\ (FileSystem.mkdir_error (disk self) <> None ->
        BlockCommitResponse.error_message (response (CommitBlock self blk))
        = "exception writing block file")
    /\ disk (node (CommitBlock self blk)) = disk self).
  { destruct (FileSystem.mkdir_error (disk self)) as [what |] eqn:E1.
    - destruct (CommitBlock_directory_error self blk what E1) as [-> ->].
      split; [discriminate | split; [intros _ |]; reflexivity].
    - destruct Hfail as [Hfail | Hro]; [congruence |].
      destruct (CommitBlock_open_error self blk E1 Hro) as [-> ->].
      split; [intros _; reflexivity | split; [congruence | reflexivity]]. }
  destruct Hdisk as (Hopen & Hdir & Hdisk).
  split; [exact Hopen |]. split; [exact Hdir |]. split; [exact Hchain |].
  split; [| split; [exact Hpool | split; [| exact Hdisk]]].
  - intros Hext. rewrite Hchain, (ChainFacts.append_extends _ _ Hext).
    reflexivity.
  - intros a Ha. rewrite Hpool.
    apply (MempoolFacts.RemoveBatch_removes _ (mempool_ self) (req_id a)).
    now apply in_map.
Qed.

(** C9. After a [CommitBlock] that answers "success", no audit of the block
    is left in the mempool: none of their request ids is the id of a pending
    audit. *)
Theorem CommitBlock_prunes_mempool (self : Node) (blk : blockchain.Block) :
  let out := CommitBlock self blk in
  BlockCommitResponse.status (response out) = "success" ->
  forall a, In a (blockchain.audits blk) ->
    ~ In (req_id a) (map req_id (MempoolManager.LoadAll (mempool_ (node out))))
    /\ MempoolManager.contains (req_id a) (mempool_ (node out)) = false.
Proof.
  cbv zeta. intros _ a Ha.
  destruct (CommitBlock_frame self blk) as (_ & _ & _ & Hpool & _).
  assert (H : ~ In (req_id a)
                (map req_id (MempoolManager.LoadAll
                               (mempool_ (node (CommitBlock self blk)))))).
  { rewrite Hpool. apply MempoolFacts.RemoveBatch_removes. now apply in_map. }
  split; [exact H |].
  destruct (MempoolManager.contains _ _) eqn:E; [| reflexivity].
  apply MempoolFacts.contains_In in E. contradiction.
Qed.

(** A commit keeps the index contiguous. *)
Lemma CommitBlock_contiguous (self : Node) (blk : blockchain.Block) :
  ChainManager.contiguous (chain_ self) ->
  ChainManager.contiguous (chain_ (node (CommitBlock self blk))).
Proof.
  intros H. destruct (CommitBlock_frame self blk) as (_ & _ & -> & _).
  now apply ChainFacts.append_contiguous.
Qed.
End Commit.

(** A block that does not extend the head is answered with "success". *)
Lemma CommitBlock_accepts_stray_block :
  let out := CommitBlock (pbjson := TestDoubles.block_id_only)
               TestDoubles.node_with_r1 TestDoubles.stray_block in
  fst (ChainManager.append (CommitBlock_meta TestDoubles.stray_block)
                           (chain_ TestDoubles.node_with_r1))
  = ChainManager.ChainBroken
  /\ rpc_status out = grpc.Status_OK
  /\ BlockCommitResponse.status (response out) = "success"
  /\ BlockCommitResponse.status (response out) <> "failure".
Proof. vm_compute. repeat split; discriminate. Qed.

Lemma CommitBlock_ignores_rejection_witness :
  let out := CommitBlock (pbjson := TestDoubles.block_id_only)
               TestDoubles.node_with_r1 TestDoubles.stray_block in
  fst (ChainManager.append (CommitBlock_meta TestDoubles.stray_block)
                           (chain_ TestDoubles.node_with_r1))
  = ChainManager.ChainBroken
  /\ chain_ (node out) = chain_ TestDoubles.node_with_r1
  /\ mempool_ (node out) = [].
Proof.
  assert (H : fst (ChainManager.append
                     (CommitBlock_meta TestDoubles.stray_block)
                     (chain_ TestDoubles.node_with_r1))
              = ChainManager.ChainBroken) by (vm_compute; reflexivity).
  destruct (CommitBlock_ignores_rejection
              (pbjson := TestDoubles.block_id_only)
              TestDoubles.node_with_r1 TestDoubles.stray_block H)
    as (Hchain & Hpool & _).
  cbv zeta. split; [exact H |]. split; [exact Hchain |].
  rewrite Hpool. vm_compute. reflexivity.
Defined.

(** When [../blocks] cannot be created the message is not "could not write
    block file"; and when the file of a block that did not extend the head
    cannot be opened, there is no index entry for it. *)
Lemma CommitBlock_other_write_failures :
  let out1 := CommitBlock (pbjson := TestDoubles.block_id_only)
                (with_disk TestDoubles.no_directory_disk TestDoubles.node_with_r1)
                TestDoubles.block0 in
  let out2 := CommitBlock (pbjson := TestDoubles.block_id_only)
                (with_disk TestDoubles.read_only_disk TestDoubles.node_with_r1)
                TestDoubles.stray_block in
  (cannot_create TestDoubles.no_directory_disk
   /\ BlockCommitResponse.status (response out1) = "failure"
   /\ BlockCommitResponse.error_message (response out1)
      = "exception writing block file"
   /\ BlockCommitResponse.error_message (response out1)
      <> "could not write block file")
  /\ (cannot_create TestDoubles.read_only_disk
      /\ BlockCommitResponse.error_message (response out2)
         = "could not write block file"
      /\ ChainManager.index (chain_ (node out2)) = []).
Proof.
  vm_compute. repeat split; try discriminate.
  - left. discriminate.
  - now right.
Qed.

Lemma CommitBlock_failure_keeps_changes_witness :
  let self := with_disk TestDoubles.read_only_disk TestDoubles.node_with_r1 in
  let out := CommitBlock (pbjson := TestDoubles.block_id_only)
               self TestDoubles.block0 in
  cannot_create (disk self)
  /\ response out
     = {| BlockCommitResponse.status := "failure";
          BlockCommitResponse.error_message := "could not write block file" |}
  /\ ChainManager.index (chain_ (node out))
     = [CommitBlock_meta TestDoubles.block0]
  /\ mempool_ (node out) = [].
Proof.
  assert (H : cannot_create (disk (with_disk TestDoubles.read_only_disk
                                          TestDoubles.node_with_r1)))
    by (right; reflexivity).
  destruct (CommitBlock_failure_keeps_changes
              (pbjson := TestDoubles.block_id_only)
              (with_disk TestDoubles.read_only_disk TestDoubles.node_with_r1)
              TestDoubles.block0 H)
    as (Hst & Hmsg & _ & _ & Hidx & Hpool & _).
  cbv zeta. split; [exact H |]. split; [| split].
  - destruct (response _) as [st msg]. cbn in Hst, Hmsg.
    rewrite Hst, (Hmsg eq_refl). reflexivity.
  - apply Hidx. split; reflexivity.
  - rewrite Hpool. vm_compute. reflexivity.
Defined.

Lemma CommitBlock_prunes_mempool_witness :
  let out := CommitBlock (pbjson := TestDoubles.block_id_only)
               TestDoubles.node_with_r1 TestDoubles.block0 in
  BlockCommitResponse.status (response out) = "success"
  /\ MempoolManager.contains "r1" (mempool_ TestDoubles.node_with_r1) = true
  /\ MempoolManager.contains "r1" (mempool_ (node out)) = false.
Proof.
  assert (H : BlockCommitResponse.status
                (response (CommitBlock (pbjson := TestDoubles.block_id_only)
                             TestDoubles.node_with_r1 TestDoubles.block0))
              = "success") by (vm_compute; reflexivity).
  cbv zeta. split; [exact H |]. split; [vm_compute; reflexivity |].
  apply (CommitBlock_prunes_mempool (pbjson := TestDoubles.block_id_only)
           TestDoubles.node_with_r1 TestDoubles.block0 H TestDoubles.r1).
  now left.
Defined.

(** S3 on one node: the commit of block 0 appends the index entry, empties
    the mempool and writes [block_0.json]. *)
Example CommitBlock_block0 :
  let out := CommitBlock (pbjson := TestDoubles.block_id_only)
               TestDoubles.node_with_r1 TestDoubles.block0 in
  ChainManager.getLastID (chain_ (node out)) = 0
  /\ ChainManager.getLastHash (chain_ (node out)) = "h0"
  /\ length (mempool_ (node out)) = 0%nat
  /\ FileSystem.files (disk (node out)) !! "../blocks/block_0.json"
     = Some "{id:0}".
Proof. vm_compute. repeat split. Qed.

(** The same commit with no space left on the device: the index entry and
    the pruning are as before, the answer is still "success", and
    [block_0.json] is empty. *)
Example CommitBlock_block0_full_disk :
  let out := CommitBlock (pbjson := TestDoubles.block_id_only)
               (with_disk TestDoubles.full_disk TestDoubles.node_with_r1)
               TestDoubles.block0 in
  ChainManager.getLastID (chain_ (node out)) = 0
  /\ length (mempool_ (node out)) = 0%nat
  /\ response out
     = {| BlockCommitResponse.status := "success";
          BlockCommitResponse.error_message := EmptyString |}
  /\ FileSystem.files (disk (node out)) !! "../blocks/block_0.json"
     = Some EmptyString.
Proof. vm_compute. repeat split. Qed.

(** ** GetBlock *)

Section Get.
Context `{pbjson : ProtobufJson}.

(** The bounds check rejects exactly the ids beyond the head. *)
Lemma GetBlock_out_of_range (self : Node) (req : GetBlockRequest.t) :
  GetBlockResponse.error_message (response (GetBlock self req))
  = "block id out of range"
  <-> GetBlockRequest.id req > ChainManager.getLastID (chain_ self).
Proof.
  unfold GetBlock.
  destruct (Z.gtb_spec (GetBlockRequest.id req)
                       (ChainManager.getLastID (chain_ self))) as [Hgt | Hle].
  - cbn. split; [lia | reflexivity].
  - split; [| lia]. intros H. exfalso.
    destruct (FileSystem.ifstream _ _) as [json |];
      [destruct (JsonStringToMessage json) |]; cbn in H; discriminate.
Qed.

(** C10. On a chain whose index is contiguous, a request for a negative id
    is never answered "block id out of range": the check only rejects ids
    above [getLastID()], which is at least -1.  The handler goes on to open
    the file of that id, and when there is none it answers "failure",
    "could not open block file". *)
Theorem GetBlock_negative_id (self : Node) (req : GetBlockRequest.t) :
  ChainManager.contiguous (chain_ self) ->
  GetBlockRequest.id req < 0 ->
  let out := GetBlock self req in
  GetBlockResponse.error_message (response out) <> "block id out of range"
  /\ (FileSystem.files (disk self) !! block_path (GetBlockRequest.id req)
      = None ->
      response out
      = {| GetBlockResponse.block := None;
           GetBlockResponse.status := "failure";
           GetBlockResponse.error_message := "could not open block file" |})
  /\ rpc_status out = grpc.Status_OK
  /\ node out = self.
Proof.
  intros Hc Hneg. cbv zeta.
  pose proof (ChainFacts.contiguous_last_id_bound _ Hc) as Hlast.
  split.
  - rewrite GetBlock_out_of_range. lia.
  - unfold GetBlock.
    destruct (Z.gtb_spec (GetBlockRequest.id req)
                         (ChainManager.getLastID (chain_ self))); [lia |].
    unfold FileSystem.ifstream.
    destruct (FileSystem.files (disk self) !! _) as [json |];
      [destruct (JsonStringToMessage json) |]; cbn;
      repeat split; intros; congruence.
Qed.
End Get.

Lemma GetBlock_negative_id_witness :
  let req := {| GetBlockRequest.id := -3 |} in
  let out := GetBlock (pbjson := TestDoubles.block_id_only)
               TestDoubles.fresh_node req in
  ChainManager.contiguous (chain_ TestDoubles.fresh_node)
  /\ GetBlockRequest.id req < 0
  /\ block_path (GetBlockRequest.id req) = "../blocks/block_-3.json"
  /\ GetBlockResponse.error_message (response out)
     = "could not open block file".
Proof.
  assert (Hc : ChainManager.contiguous (chain_ TestDoubles.fresh_node))
    by reflexivity.
  assert (Hneg : GetBlockRequest.id {| GetBlockRequest.id := -3 |} < 0)
    by (cbn; lia).
  destruct (GetBlock_negative_id (pbjson := TestDoubles.block_id_only)
              TestDoubles.fresh_node {| GetBlockRequest.id := -3 |} Hc Hneg)
    as (_ & Hopen & _).
  cbv zeta. split; [exact Hc |]. split; [exact Hneg |].
  split; [vm_compute; reflexivity |].
  rewrite Hopen; reflexivity.
Defined.

(** After the commit of block 0 an id beyond the head is out of range, and
    a negative one is looked up on the disk. *)
Example GetBlock_after_commit :
  let committed :=
    node (CommitBlock (pbjson := TestDoubles.block_id_only)
            TestDoubles.node_with_r1 TestDoubles.block0) in
  let get id := GetBlockResponse.error_message
                  (response (GetBlock (pbjson := TestDoubles.block_id_only)
                               committed {| GetBlockRequest.id := id |})) in
  get 1 = "block id out of range"
  /\ get (-1) = "could not open block file"
  /\ get 0 = "JSON parse error: unsupported: {id:0}".
Proof. vm_compute. repeat split. Qed.

(** * Further properties of the handlers *)

(** ** The canonical payload determines the signed fields *)

Module DecodeFacts.
Import Json Decode.

Lemma unescape_escape_byte c rest :
  unescape (escape_byte c +:+ rest) = Some (c, rest).
Proof. destruct c as [[] [] [] [] [] [] [] []]; reflexivity. Qed.

Lemma unescape_quote rest : unescape (dquote +:+ rest) = None.
Proof. reflexivity. Qed.

Lemma unescape_end rest :
  unescape (dump_escaped EmptyString +:+ dquote +:+ rest) = None.
Proof. reflexivity. Qed.

Lemma unescape_cons c s rest :
  unescape (dump_escaped (String c s) +:+ dquote +:+ rest)
  = Some (c, dump_escaped s +:+ dquote +:+ rest).
Proof.
  change (dump_escaped (String c s)) with (escape_byte c +:+ dump_escaped s).
  rewrite RenderFacts.append_assoc. apply unescape_escape_byte.
Qed.

(** The inside of a literal, up to its closing quote, determines the
    string. *)
Lemma dump_escaped_delimited s1 : forall s2 r1 r2,
  dump_escaped s1 +:+ dquote +:+ r1 = dump_escaped s2 +:+ dquote +:+ r2 ->
  s1 = s2 /\ r1 = r2.
Proof.
  induction s1 as [|c1 s1 IH]; intros [|c2 s2] r1 r2 E.
  - injection E as E. auto.
  - apply (f_equal unescape) in E.
    rewrite unescape_end, unescape_cons in E. discriminate.
  - apply (f_equal unescape) in E.
    rewrite unescape_end, unescape_cons in E. discriminate.
  - apply (f_equal unescape) in E. rewrite !unescape_cons in E.
    injection E as -> E. apply IH in E as [-> ->]. auto.
Qed.

Lemma dump_string_delimited s1 s2 r1 r2 :
  dump_string s1 +:+ r1 = dump_string s2 +:+ r2 -> s1 = s2 /\ r1 = r2.
Proof.
  unfold dump_string. rewrite !RenderFacts.append_assoc. intros E.
  change (dquote +:+ ?x) with (String (ascii_of_N 34) x) in E at 1 3.
  injection E as E. now apply dump_escaped_delimited in E.
Qed.

Lemma uint_delimited d1 : forall d2 c1 c2 r1 r2,
  is_digit c1 = false -> is_digit c2 = false ->
  NilEmpty.string_of_uint d1 +:+ String c1 r1
  = NilEmpty.string_of_uint d2 +:+ String c2 r2 ->
  d1 = d2 /\ c1 = c2 /\ r1 = r2.
Proof.
  induction d1 as [|d1 IH|d1 IH|d1 IH|d1 IH|d1 IH|d1 IH|d1 IH|d1 IH|d1 IH|d1 IH];
    intros [|d2|d2|d2|d2|d2|d2|d2|d2|d2|d2] c1 c2 r1 r2 H1 H2 E;
    cbn in E; try discriminate E;
    first [ injection E as E; apply IH in E as (-> & -> & ->); auto
          | injection E as Ec Er; subst;
            first [ vm_compute in H1; discriminate H1
                  | vm_compute in H2; discriminate H2
                  | auto ] ].
Qed.

Lemma string_of_int_delimited (d1 d2 : Decimal.signed_int) c r1 r2 :
  is_digit c = false -> c <> "-"%char ->
  NilEmpty.string_of_int d1 +:+ String c r1
  = NilEmpty.string_of_int d2 +:+ String c r2 ->
  d1 = d2 /\ r1 = r2.
Proof.
  intros Hd Hm.
  destruct d1 as [d1 | d1], d2 as [d2 | d2]; cbn; intros E.
  - apply uint_delimited in E as (-> & _ & ->); auto.
  - exfalso. destruct d1; cbn in E; try discriminate.
    injection E as E _. contradiction.
  - exfalso. destruct d2; cbn in E; try discriminate.
    injection E as E _. symmetry in E. contradiction.
  - injection E as E. apply uint_delimited in E as (-> & _ & ->); auto.
Qed.

Lemma to_string_then c z1 z2 r1 r2 :
  is_digit c = false -> c <> "-"%char ->
  to_string z1 +:+ String c r1 = to_string z2 +:+ String c r2 ->
  z1 = z2 /\ r1 = r2.
Proof.
  unfold to_string. intros Hd Hm E.
  apply string_of_int_delimited in E as [E ->]; try assumption.
  split; [| reflexivity].
  rewrite <- (DecimalZ.of_to z1), <- (DecimalZ.of_to z2). now rewrite E.
Qed.

Lemma to_string_delimited z1 z2 r1 r2 :
  to_string z1 +:+ "," +:+ r1 = to_string z2 +:+ "," +:+ r2 ->
  z1 = z2 /\ r1 = r2.
Proof. apply to_string_then; [reflexivity | discriminate]. Qed.

Lemma to_string_inj z1 z2 : to_string z1 = to_string z2 -> z1 = z2.
Proof.
  intros E.
  apply (to_string_delimited z1 z2 EmptyString EmptyString). now rewrite E.
Qed.
End DecodeFacts.

Section PayloadInjective.
Import common Json DecodeFacts.

Lemma literal_cancel c (x y : string) :
  String c EmptyString +:+ x = String c EmptyString +:+ y -> x = y.
Proof. intros E. now injection E. Qed.

Ltac payload_shape E :=
  unfold SubmitAudit_payload, SubmitAudit_json in E;
  cbn [assign init fold_left emplace String.eqb Ascii.eqb Bool.eqb fst snd
       dump dump_members] in E;
  rewrite !RenderFacts.append_assoc in E.

Ltac payload_next E :=
  lazymatch type of E with
  | dump_string _ +:+ _ = dump_string _ +:+ _ =>
      apply dump_string_delimited in E as [? E]
  | to_string _ +:+ _ = to_string _ +:+ _ =>
      apply to_string_delimited in E as [? E]
  | String _ EmptyString +:+ _ = _ => apply literal_cancel in E
  end.

Lemma SubmitAudit_payload_fields (a b : FileAudit) :
  SubmitAudit_payload a = SubmitAudit_payload b ->
  access_type a = access_type b
  /\ file_id (file_info a) = file_id (file_info b)
  /\ file_name (file_info a) = file_name (file_info b)
  /\ req_id a = req_id b
  /\ timestamp a = timestamp b
  /\ user_id (user_info a) = user_id (user_info b)
  /\ user_name (user_info a) = user_name (user_info b).
Proof.
  intros E. payload_shape E. repeat payload_next E. auto 10.
Qed.

Lemma signed_part_payload (a b : FileAudit) :
  signed_part a = signed_part b ->
  SubmitAudit_payload a = SubmitAudit_payload b.
Proof.
  unfold signed_part. intros E. injection E as E1 E2 E3 E4 E5.
  unfold SubmitAudit_payload, SubmitAudit_json.
  now rewrite E1, E2, E3, E4, E5.
Qed.

Lemma payload_signed_part (a b : FileAudit) :
  SubmitAudit_payload a = SubmitAudit_payload b ->
  signed_part a = signed_part b.
Proof.
  intros E. apply SubmitAudit_payload_fields in E
    as (E1 & E2 & E3 & E4 & E5 & E6 & E7).
  unfold signed_part.
  destruct (file_info a), (file_info b), (user_info a), (user_info b).
  cbn in *. congruence.
Qed.

(** X1. The text that is signed and hashed determines the five signed
    fields, and nothing else of the audit: two audits have the same payload
    in [SubmitAudit] (and the same in [WhisperAuditRequest], and the same
    Merkle leaf text in [ProposeBlock]) exactly when they agree on
    [access_type], [file_info], [req_id], [timestamp] and [user_info].
    Quotes, backslashes and control characters inside the fields cannot
    make two different audits share a payload. *)
Theorem payload_injective (a b : FileAudit) :
  (SubmitAudit_payload a = SubmitAudit_payload b
   <-> signed_part a = signed_part b)
  /\ (WhisperAuditRequest_payload a = WhisperAuditRequest_payload b
      <-> signed_part a = signed_part b)
  /\ (ProposeBlock_leaf_payload a = ProposeBlock_leaf_payload b
      <-> signed_part a = signed_part b).
Proof.
  assert (H : SubmitAudit_payload a = SubmitAudit_payload b
              <-> signed_part a = signed_part b)
    by (split; [apply payload_signed_part | apply signed_part_payload]).
  split; [exact H |].
  split; (rewrite <- H; split; intros E; exact E).
Qed.
End PayloadInjective.

(** Two audits that differ in a quote character only. *)
Example payload_injective_quote :
  let a := common.set_signature EmptyString TestDoubles.r1 in
  let b :=
    {| common.req_id := "r1" +:+ dquote; common.timestamp := 1;
       common.access_type := "read";
       common.file_info := common.file_info a;
       common.user_info := common.user_info a;
       common.signature := EmptyString; common.public_key := "test-key" |} in
  SubmitAudit_payload a <> SubmitAudit_payload b.
Proof. vm_compute. discriminate. Qed.

(** ** Verification and admission *)

Section AdmissionMore.
Context `{crypto : OpenSSL}.
Import common.

(** X2. An audit whose public key does not parse ([PEM_read_bio_PUBKEY]
    gives no key) is refused by both admission handlers whatever its
    signature: [SubmitAudit] with "Invalid client signature" and without
    any gossip, [WhisperAuditRequest] with "Invalid signature in gossiped
    audit"; neither changes the node. *)
Theorem unparsable_key_refused (net : Network) (self : Node)
        (request : FileAudit) :
  PEM_read_bio_PUBKEY (public_key request) = None ->
  let submit := SubmitAudit net self request in
  let whisper := WhisperAuditRequest self request in
  (rpc_status submit = InvalidArgument "Invalid client signature"
   /\ node submit = self /\ effects submit = [])
  /\ (rpc_status whisper = InvalidArgument "Invalid signature in gossiped audit"
      /\ node whisper = self /\ effects whisper = []).
Proof.
  intros Hkey. cbv zeta. unfold SubmitAudit, WhisperAuditRequest.
  unfold VerifySignature. rewrite Hkey. cbn. auto 10.
Qed.

(** X3. A signature from which the base64 filter reads nothing ([BIO_read]
    answers 0, or a negative length) is not refused on the spot:
    [Base64Decode] turns it into the empty byte string, so the audit is
    judged by what OpenSSL says about the empty signature under its key.
    [SubmitAudit] answers OK when [EVP_DigestVerifyFinal] accepts that and
    "Invalid client signature" otherwise, in particular when the key does
    not parse. *)
Theorem undecodable_signature_is_empty (net : Network) (self : Node)
        (request : FileAudit) :
  fst (BIO_read_base64 (signature request)) <= 0 ->
  let accepted :=
    match PEM_read_bio_PUBKEY (public_key request) with
    | None => false
    | Some pkey =>
        EVP_DigestVerify pkey (SubmitAudit_payload request) EmptyString =? 1
    end in
  Base64Decode (signature request) = EmptyString
  /\ VerifySignature (SubmitAudit_payload request)
                     (signature request) (public_key request) = accepted
  /\ rpc_status (SubmitAudit net self request)
     = (if accepted then grpc.Status_OK
        else InvalidArgument "Invalid client signature").
Proof.
  intros Hlen. cbv zeta.
  assert (H : Base64Decode (signature request) = EmptyString).
  { unfold Base64Decode.
    destruct (BIO_read_base64 (signature request)) as [len out].
    cbn in Hlen. destruct (Z.ltb_spec len 0); [reflexivity |].
    replace len with 0 by lia. now destruct out. }
  assert (Hv : VerifySignature (SubmitAudit_payload request)
                 (signature request) (public_key request)
               = match PEM_read_bio_PUBKEY (public_key request) with
                 | None => false
                 | Some pkey =>
                     EVP_DigestVerify pkey (SubmitAudit_payload request)
                                      EmptyString =? 1
                 end).
  { unfold VerifySignature. now rewrite H. }
  split; [exact H |]. split; [exact Hv |].
  unfold SubmitAudit. rewrite Hv.
  destruct (match PEM_read_bio_PUBKEY (public_key request) with
            | None => false
            | Some pkey => _
            end); reflexivity.
Qed.


(** X5. [SubmitAudit] has no duplicate check in front of the gossip: a
    verified audit that is submitted again is sent to every peer again,
    with the same calls, while the node stays as the first submission left
    it. *)
Theorem resubmission_gossips_again (net1 net2 : Network) (self : Node)
        (request : FileAudit) :
  VerifySignature (SubmitAudit_payload request)
                  (signature request) (public_key request) = true ->
  let first := SubmitAudit net1 self request in
  let second := SubmitAudit net2 (node first) request in
  node second = node first
  /\ List.filter is_rpc (effects second) = List.filter is_rpc (effects first)
  /\ length (List.filter is_rpc (effects second)) = length (gossip_stubs_ self)
  /\ response second = response first.
Proof.
  intros Hsig. cbv zeta. unfold SubmitAudit. rewrite Hsig.
  cbn [negb node effects response mempool_ gossip_stubs_ with_mempool].
  rewrite MempoolFacts.Append_idempotent, !gossip_calls, length_map.
  repeat split.
Qed.
End AdmissionMore.

Lemma unparsable_key_refused_witness :
  PEM_read_bio_PUBKEY (OpenSSL := TestDoubles.digest_echo)
    (common.public_key MoreDoubles.r1_without_key) = None
  /\ rpc_status (SubmitAudit (crypto := TestDoubles.digest_echo)
                   TestDoubles.bad_network TestDoubles.fresh_node
                   MoreDoubles.r1_without_key)
     = InvalidArgument "Invalid client signature".
Proof.
  assert (H : PEM_read_bio_PUBKEY (OpenSSL := TestDoubles.digest_echo)
                (common.public_key MoreDoubles.r1_without_key) = None)
    by reflexivity.
  split; [exact H |].
  apply (unparsable_key_refused (crypto := TestDoubles.digest_echo)
           TestDoubles.bad_network TestDoubles.fresh_node
           MoreDoubles.r1_without_key H).
Defined.

Lemma undecodable_signature_is_empty_witness :
  fst (BIO_read_base64 (OpenSSL := MoreDoubles.strict_echo)
         (common.signature MoreDoubles.r1_not_base64)) <= 0
  /\ rpc_status (SubmitAudit (crypto := MoreDoubles.strict_echo)
                   TestDoubles.bad_network TestDoubles.fresh_node
                   MoreDoubles.r1_not_base64)
     = InvalidArgument "Invalid client signature".
Proof.
  assert (H : fst (BIO_read_base64 (OpenSSL := MoreDoubles.strict_echo)
                     (common.signature MoreDoubles.r1_not_base64)) <= 0)
    by (vm_compute; discriminate).
  split; [exact H |].
  destruct (undecodable_signature_is_empty (crypto := MoreDoubles.strict_echo)
              TestDoubles.bad_network TestDoubles.fresh_node
              MoreDoubles.r1_not_base64 H) as (_ & _ & ->).
  vm_compute. reflexivity.
Defined.

Lemma resubmission_gossips_again_witness :
  let first := SubmitAudit (crypto := TestDoubles.digest_echo)
                 TestDoubles.bad_network TestDoubles.fresh_node
                 TestDoubles.r1 in
  let second := SubmitAudit (crypto := TestDoubles.digest_echo)
                  (fun _ _ _ => (grpc.Status_OK, WhisperResponse.default))
                  (node first) TestDoubles.r1 in
  VerifySignature (crypto := TestDoubles.digest_echo)
    (SubmitAudit_payload TestDoubles.r1) (common.signature TestDoubles.r1)
    (common.public_key TestDoubles.r1) = true
  /\ length (mempool_ (node second)) = 1%nat
  /\ length (List.filter is_rpc (effects second)) = 2%nat.
Proof.
  assert (H : VerifySignature (crypto := TestDoubles.digest_echo)
                (SubmitAudit_payload TestDoubles.r1)
                (common.signature TestDoubles.r1)
                (common.public_key TestDoubles.r1) = true)
    by (vm_compute; reflexivity).
  destruct (resubmission_gossips_again (crypto := TestDoubles.digest_echo)
              TestDoubles.bad_network
              (fun _ _ _ => (grpc.Status_OK, WhisperResponse.default))
              TestDoubles.fresh_node TestDoubles.r1 H)
    as (Hnode & _ & Hlen & _).
  cbv zeta. split; [exact H |]. split; [| exact Hlen].
  rewrite Hnode. vm_compute. reflexivity.
Defined.

(** ** What ProposeBlock looks at *)

Lemma canonical_of_signed_part (a b : common.FileAudit) :
  signed_part a = signed_part b ->
  CanonicalSpec.canonical_encoding a = CanonicalSpec.canonical_encoding b.
Proof.
  unfold signed_part. intros E. injection E as E1 E2 E3 E4 E5.
  unfold CanonicalSpec.canonical_encoding, CanonicalSpec.signed_fields.
  now rewrite E1, E2, E3, E4, E5.
Qed.

Lemma leafs_of_signed_parts (l1 : list common.FileAudit) : forall l2,
  map signed_part l1 = map signed_part l2 ->
  map (fun a => SHA256Hex (CanonicalSpec.canonical_encoding a)) l1
  = map (fun a => SHA256Hex (CanonicalSpec.canonical_encoding a)) l2.
Proof.
  induction l1 as [|a l1 IH]; intros [|b l2] E; try discriminate;
    [reflexivity |].
  change (signed_part a :: map signed_part l1
          = signed_part b :: map signed_part l2) in E.
  assert (Ea : signed_part a = signed_part b) by congruence.
  assert (El : map signed_part l1 = map signed_part l2) by congruence.
  cbn [map]. now rewrite (canonical_of_signed_part a b Ea), (IH l2 El).
Qed.

(** X6. The vote of [ProposeBlock] depends on the block's [merkle_root] and
    [previous_hash], on the signed fields of its audits and on the hash of
    the chain head, and on nothing else: neither the block's [id] or
    [hash], nor the signatures and public keys of its audits, nor the rest
    of the node enter the answer.  A block with forged signatures and any
    id is voted for when root and previous hash match. *)
Theorem ProposeBlock_looks_at (self self' : Node) (blk blk' : blockchain.Block) :
  blockchain.merkle_root blk = blockchain.merkle_root blk' ->
  blockchain.previous_hash blk = blockchain.previous_hash blk' ->
  map signed_part (blockchain.audits blk)
  = map signed_part (blockchain.audits blk') ->
  ChainManager.getLastHash (chain_ self)
  = ChainManager.getLastHash (chain_ self') ->
  response (ProposeBlock self blk) = response (ProposeBlock self' blk').
Proof.
  intros Hroot Hprev Haudits Hhead. unfold ProposeBlock.
  rewrite !ProposeBlock_leafs_map, (leafs_of_signed_parts _ _ Haudits).
  rewrite Hroot, Hprev, Hhead.
  destruct (negb _); [reflexivity |]. destruct (negb _); reflexivity.
Qed.

Lemma ProposeBlock_looks_at_witness :
  map signed_part (blockchain.audits TestDoubles.block0)
  = map signed_part (blockchain.audits MoreDoubles.forged_block)
  /\ BlockVoteResponse.vote
       (response (ProposeBlock TestDoubles.node_with_r1
                               MoreDoubles.forged_block)) = true.
Proof.
  assert (Ha : map signed_part (blockchain.audits TestDoubles.block0)
               = map signed_part (blockchain.audits MoreDoubles.forged_block))
    by reflexivity.
  split; [exact Ha |].
  rewrite <- (ProposeBlock_looks_at TestDoubles.fresh_node
                TestDoubles.node_with_r1 TestDoubles.block0
                MoreDoubles.forged_block eq_refl eq_refl Ha eq_refl).
  vm_compute. reflexivity.
Defined.

(** ** Reading blocks back *)

Lemma block_path_inj i j : block_path i = block_path j -> i = j.
Proof.
  unfold block_path. intros E.
  assert (H : forall (p x y : string), p +:+ x = p +:+ y -> x = y).
  { induction p as [|c p IH]; intros x y Hxy; [exact Hxy |].
    injection Hxy as Hxy. now apply IH. }
  apply H in E.
  apply (DecodeFacts.to_string_then "."%char) in E;
    [tauto | reflexivity | discriminate].
Qed.

Section Reads.
Context `{pbjson : ProtobufJson}.

(** X7. [GetBlock] is a pure read: whatever the request, the node and the
    disk are as before, the call is answered with OK and nothing is sent.
    The response carries a block exactly when the id is not beyond the
    head, the file [block_<id>.json] exists and its text parses; the block
    is then the parsed one and the status "success"; otherwise the status
    is "failure". *)
Theorem GetBlock_reads_only (self : Node) (req : GetBlockRequest.t) :
  let out := GetBlock self req in
  node out = self /\ effects out = [] /\ rpc_status out = grpc.Status_OK
  /\ (forall blk,
        GetBlockResponse.block (response out) = Some blk <->
        GetBlockRequest.id req <= ChainManager.getLastID (chain_ self)
        /\ exists json,
             FileSystem.files (disk self) !! block_path (GetBlockRequest.id req)
             = Some json
             /\ JsonStringToMessage json = inr blk)
  /\ (GetBlockResponse.status (response out) = "success" <->
      GetBlockResponse.block (response out) <> None)
  /\ (GetBlockResponse.status (response out) = "failure" <->
      GetBlockResponse.block (response out) = None).
Proof.
  cbv zeta. unfold GetBlock, FileSystem.ifstream.
  destruct (Z.gtb_spec (GetBlockRequest.id req)
                       (ChainManager.getLastID (chain_ self))) as [Hgt | Hle].
  { cbn. split; [reflexivity |]. split; [reflexivity |].
    split; [reflexivity |]. split; [| split].
    - intros blk. split; [discriminate | intros [Hin _]; lia].
    - split; [discriminate | congruence].
    - split; reflexivity. }
  destruct (FileSystem.files (disk self) !! _) as [json |] eqn:Efile.
  - destruct (JsonStringToMessage json) as [err | parsed] eqn:Eparse; cbn.
    + split; [reflexivity |]. split; [reflexivity |].
      split; [reflexivity |]. split; [| split].
      * intros blk. split; [discriminate |].
        intros (_ & json' & Hj & Hp). congruence.
      * split; [discriminate | congruence].
      * split; reflexivity.
    + split; [reflexivity |]. split; [reflexivity |].
      split; [reflexivity |]. split; [| split].
      * intros blk. split.
        -- intros Hb. injection Hb as <-. eauto.
        -- intros (_ & json' & Hj & Hp). congruence.
      * split; [discriminate | reflexivity].
      * split; discriminate.
  - cbn. split; [reflexivity |]. split; [reflexivity |].
    split; [reflexivity |]. split; [| split].
    + intros blk. split; [discriminate |].
      intros (_ & json' & Hj & _). discriminate.
    + split; [discriminate | congruence].
    + split; reflexivity.
Qed.

(** X8. A committed block can be read back: when the block extends the
    head, the disk works and protobuf's JSON text of the block parses back
    to it, [GetBlock] on the node that [CommitBlock] leaves answers
    "success" with that very block. *)
Theorem CommitBlock_then_GetBlock (self : Node) (blk : blockchain.Block) :
  ChainManager.extends (CommitBlock_meta blk) (chain_ self) ->
  ~ disk_fails (disk self) ->
  JsonStringToMessage (MessageToJsonString blk) = inr blk ->
  response (GetBlock (node (CommitBlock self blk))
                     {| GetBlockRequest.id := blockchain.id blk |})
  = {| GetBlockResponse.block := Some blk;
       GetBlockResponse.status := "success";
       GetBlockResponse.error_message := EmptyString |}.
Proof.
  intros Hext Hdisk Hparse.
  destruct (CommitBlock_frame self blk) as (_ & _ & Hchain & _).
  destruct (disk_works _ Hdisk) as (E1 & E2 & E3).
  destruct (CommitBlock_written self blk E1 E2 E3) as [_ Hfiles].
  unfold GetBlock, FileSystem.ifstream. cbn [GetBlockRequest.id].
  rewrite Hchain, (ChainFacts.append_extends _ _ Hext). cbn [snd].
  assert (Hlast : ChainManager.getLastID
                    {| ChainManager.genesis := ChainManager.genesis (chain_ self);
                       ChainManager.index :=
                         ChainManager.index (chain_ self) ++ [CommitBlock_meta blk] |}
                  = blockchain.id blk).
  { unfold ChainManager.getLastID. cbn. now rewrite ChainFacts.last_snoc. }
  rewrite Hlast.
  destruct (Z.gtb_spec (blockchain.id blk) (blockchain.id blk)); [lia |].
  rewrite Hfiles, lookup_insert_eq, Hparse. reflexivity.
Qed.

(** X9. What a commit leaves behind when the text of a block that extends
    the head does not reach the disk.  The index advances to the block
    either way.  When the file cannot be created (the directory cannot be
    made or the file cannot be opened) the answer is "failure" and, with no
    older file of that name, [GetBlock] for the id answers "could not open
    block file".  When the file is created and the write to it stores
    nothing, [CommitBlock] answers "success" all the same, the file is left
    empty, and [GetBlock] for the id answers with what the parser says about
    the empty text: "JSON parse error: ..." when it refuses it. *)
Theorem CommitBlock_body_missing (self : Node) (blk : blockchain.Block) :
  ChainManager.extends (CommitBlock_meta blk) (chain_ self) ->
  disk_fails (disk self) ->
  let out := CommitBlock self blk in
  let after := node out in
  let get := response (GetBlock after {| GetBlockRequest.id := blockchain.id blk |}) in
  ChainManager.getLastID (chain_ after) = blockchain.id blk
  /\ ChainManager.getLastHash (chain_ after) = blockchain.hash blk
  /\ (cannot_create (disk self) ->
      BlockCommitResponse.status (response out) = "failure"
      /\ (FileSystem.files (disk self) !! block_path (blockchain.id blk) = None ->
          get = {| GetBlockResponse.block := None;
                   GetBlockResponse.status := "failure";
                   GetBlockResponse.error_message := "could not open block file" |}))
  /\ (~ cannot_create (disk self) ->
      response out
      = {| BlockCommitResponse.status := "success";
           BlockCommitResponse.error_message := EmptyString |}
      /\ FileSystem.files (disk after) !! block_path (blockchain.id blk)
         = Some EmptyString
      /\ (forall err, JsonStringToMessage EmptyString = inl err ->
          get = {| GetBlockResponse.block := None;
                   GetBlockResponse.status := "failure";
                   GetBlockResponse.error_message := "JSON parse error: " +:+ err |})).
Proof.
  intros Hext Hdisk. cbv zeta.
  destruct (CommitBlock_frame self blk) as (_ & _ & Hchain & _).
  assert (Hid : ChainManager.getLastID (chain_ (node (CommitBlock self blk)))
                = blockchain.id blk).
  { rewrite Hchain, (ChainFacts.append_extends _ _ Hext).
    unfold ChainManager.getLastID. cbn. now rewrite ChainFacts.last_snoc. }
  split; [exact Hid |]. split; [| split].
  - rewrite Hchain, (ChainFacts.append_extends _ _ Hext).
    unfold ChainManager.getLastHash. cbn. now rewrite ChainFacts.last_snoc.
  - intros Hfail. split; [now apply CommitBlock_status |]. intros Hnone.
    assert (Hd : disk (node (CommitBlock self blk)) = disk self).
    { destruct (FileSystem.mkdir_error (disk self)) as [what |] eqn:E1.
      - apply (CommitBlock_directory_error self blk what E1).
      - destruct Hfail as [H | H]; [congruence |].
        apply (CommitBlock_open_error self blk E1 H). }
    unfold GetBlock, FileSystem.ifstream. cbn [GetBlockRequest.id].
    rewrite Hid, Hd, Hnone.
    destruct (Z.gtb_spec (blockchain.id blk) (blockchain.id blk)); [lia |].
    reflexivity.
  - intros Hcreated.
    assert (E1 : FileSystem.mkdir_error (disk self) = None).
    { destruct (FileSystem.mkdir_error (disk self)) eqn:E; [| reflexivity].
      exfalso. apply Hcreated. left. rewrite E. discriminate. }
    assert (E2 : FileSystem.read_only (disk self) = false).
    { destruct (FileSystem.read_only (disk self)) eqn:E; [| reflexivity].
      exfalso. apply Hcreated. right. exact E. }
    assert (E3 : FileSystem.full (disk self) = true).
    { destruct Hdisk as [H | H]; [contradiction | exact H]. }
    destruct (CommitBlock_write_lost self blk E1 E2 E3) as [Hresp Hfiles].
    split; [exact Hresp |].
    assert (Hfile : FileSystem.files (disk (node (CommitBlock self blk)))
                      !! block_path (blockchain.id blk) = Some EmptyString).
    { rewrite Hfiles. apply lookup_insert_eq. }
    split; [exact Hfile |]. intros err Herr.
    unfold GetBlock, FileSystem.ifstream. cbn [GetBlockRequest.id].
    rewrite Hid, Hfile, Herr.
    destruct (Z.gtb_spec (blockchain.id blk) (blockchain.id blk)); [lia |].
    reflexivity.
Qed.

(** X10. [CommitBlock] touches one file only: whatever the block and the
    state of the disk, the files of all other block ids are after the call
    what they were before it. *)
Theorem CommitBlock_other_files (self : Node) (blk : blockchain.Block) (i : Z) :
  i <> blockchain.id blk ->
  FileSystem.files (disk (node (CommitBlock self blk))) !! block_path i
  = FileSystem.files (disk self) !! block_path i.
Proof.
  intros Hi.
  destruct (FileSystem.mkdir_error (disk self)) as [what |] eqn:E1.
  { now destruct (CommitBlock_directory_error self blk what E1) as [_ ->]. }
  destruct (FileSystem.read_only (disk self)) eqn:E2.
  { now destruct (CommitBlock_open_error self blk E1 E2) as [_ ->]. }
  destruct (FileSystem.full (disk self)) eqn:E3;
    [destruct (CommitBlock_write_lost self blk E1 E2 E3) as [_ ->]
    | destruct (CommitBlock_written self blk E1 E2 E3) as [_ ->]];
    apply lookup_insert_ne; intros E; apply block_path_inj in E; congruence.
Qed.

(** X11. On a disk that works (the directory can be made, the file opened
    and the text written), the block file follows the last commit, not the
    index: when a first block extends the head and a second block with the
    same id is committed after it, the index keeps the entry of the first
    (the second is rejected by [append]) while [block_<id>.json] now holds
    the text of the second, and the second call is answered "success". *)
Theorem CommitBlock_same_id_twice (self : Node) (b1 b2 : blockchain.Block) :
  ChainManager.extends (CommitBlock_meta b1) (chain_ self) ->
  blockchain.id b2 = blockchain.id b1 ->
  ~ disk_fails (disk self) ->
  let after := node (CommitBlock (node (CommitBlock self b1)) b2) in
  ChainManager.index (chain_ after)
  = ChainManager.index (chain_ self) ++ [CommitBlock_meta b1]
  /\ FileSystem.files (disk after) !! block_path (blockchain.id b1)
     = Some (MessageToJsonString b2)
  /\ BlockCommitResponse.status
       (response (CommitBlock (node (CommitBlock self b1)) b2)) = "success".
Proof.
  intros Hext Hid Hdisk. cbv zeta.
  destruct (disk_works _ Hdisk) as (E1 & E2 & E3).
  set (mid := node (CommitBlock self b1)).
  assert (Hmid : chain_ mid
                 = {| ChainManager.genesis := ChainManager.genesis (chain_ self);
                      ChainManager.index :=
                        ChainManager.index (chain_ self) ++ [CommitBlock_meta b1] |}).
  { destruct (CommitBlock_frame self b1) as (_ & _ & Hchain & _).
    subst mid. now rewrite Hchain, (ChainFacts.append_extends _ _ Hext). }
  assert (Hmd : FileSystem.mkdir_error (disk mid) = None
                /\ FileSystem.read_only (disk mid) = false
                /\ FileSystem.full (disk mid) = false).
  { subst mid. unfold CommitBlock, FileSystem.create_directories,
      FileSystem.ofstream, FileSystem.write.
    cbn. rewrite E1. cbn. rewrite E2. cbn. rewrite E3. cbn. auto. }
  destruct Hmd as (M1 & M2 & M3).
  destruct (CommitBlock_frame mid b2) as (_ & _ & Hchain2 & _).
  destruct (CommitBlock_written mid b2 M1 M2 M3) as [Hresp Hfiles].
  split; [| split].
  - rewrite Hchain2, ChainFacts.append_rejected_same; [now rewrite Hmid |].
    apply ChainFacts.append_rejected. intros [_ Hnext].
    rewrite Hmid in Hnext. unfold ChainManager.getLastID in Hnext.
    cbn in Hnext. rewrite ChainFacts.last_snoc in Hnext. cbn in Hnext. lia.
  - rewrite Hfiles, <- Hid. apply lookup_insert_eq.
  - now rewrite Hresp.
Qed.
End Reads.

Lemma CommitBlock_then_GetBlock_witness :
  ChainManager.extends (CommitBlock_meta TestDoubles.block0)
                       (chain_ TestDoubles.node_with_r1)
  /\ ~ disk_fails (disk TestDoubles.node_with_r1)
  /\ GetBlockResponse.block
       (response
          (GetBlock (pbjson := MoreDoubles.sample_blocks)
             (node (CommitBlock (pbjson := MoreDoubles.sample_blocks)
                      TestDoubles.node_with_r1 TestDoubles.block0))
             {| GetBlockRequest.id := 0 |}))
     = Some TestDoubles.block0.
Proof.
  assert (Hext : ChainManager.extends (CommitBlock_meta TestDoubles.block0)
                   (chain_ TestDoubles.node_with_r1)) by (split; reflexivity).
  assert (Hdisk : ~ disk_fails (disk TestDoubles.node_with_r1)).
  { intros [[H | H] | H]; [now apply H | discriminate H | discriminate H]. }
  split; [exact Hext |]. split; [exact Hdisk |].
  change 0 with (blockchain.id TestDoubles.block0) at 1.
  rewrite (CommitBlock_then_GetBlock (pbjson := MoreDoubles.sample_blocks)
             TestDoubles.node_with_r1 TestDoubles.block0 Hext Hdisk);
    [reflexivity | vm_compute; reflexivity].
Defined.

Lemma CommitBlock_body_missing_witness :
  let self := with_disk TestDoubles.full_disk TestDoubles.node_with_r1 in
  let out := CommitBlock (pbjson := MoreDoubles.sample_blocks)
               self TestDoubles.block0 in
  disk_fails (disk self)
  /\ BlockCommitResponse.status (response out) = "success"
  /\ ChainManager.getLastID (chain_ (node out)) = 0
  /\ GetBlockResponse.error_message
       (response (GetBlock (pbjson := MoreDoubles.sample_blocks) (node out)
                    {| GetBlockRequest.id := 0 |}))
     = "JSON parse error: unsupported: ".
Proof.
  cbv zeta.
  assert (Hext : ChainManager.extends (CommitBlock_meta TestDoubles.block0)
                   (chain_ (with_disk TestDoubles.full_disk
                                      TestDoubles.node_with_r1)))
    by (split; reflexivity).
  assert (Hdisk : disk_fails (disk (with_disk TestDoubles.full_disk
                                              TestDoubles.node_with_r1)))
    by (right; reflexivity).
  assert (Hcreated : ~ cannot_create (disk (with_disk TestDoubles.full_disk
                                                      TestDoubles.node_with_r1))).
  { intros [H | H]; [now apply H | discriminate H]. }
  destruct (CommitBlock_body_missing (pbjson := MoreDoubles.sample_blocks)
              (with_disk TestDoubles.full_disk TestDoubles.node_with_r1)
              TestDoubles.block0 Hext Hdisk) as (Hid & _ & _ & Hlost).
  destruct (Hlost Hcreated) as (Hresp & _ & Hget).
  split; [exact Hdisk |]. split; [now rewrite Hresp |]. split; [exact Hid |].
  change 0 with (blockchain.id TestDoubles.block0) at 1.
  now rewrite (Hget "unsupported: " eq_refl).
Defined.

Lemma CommitBlock_other_files_witness :
  let self := node (CommitBlock (pbjson := MoreDoubles.sample_blocks)
                      TestDoubles.node_with_r1 TestDoubles.block0) in
  0 <> blockchain.id MoreDoubles.forged_block
  /\ FileSystem.files
       (disk (node (CommitBlock (pbjson := MoreDoubles.sample_blocks)
                      self MoreDoubles.forged_block)))
       !! "../blocks/block_0.json"
     = Some (MoreDoubles.block_text TestDoubles.block0).
Proof.
  cbv zeta.
  assert (H : 0 <> blockchain.id MoreDoubles.forged_block) by discriminate.
  split; [exact H |].
  change "../blocks/block_0.json" with (block_path 0).
  rewrite (CommitBlock_other_files (pbjson := MoreDoubles.sample_blocks) _
             MoreDoubles.forged_block 0 H).
  vm_compute. reflexivity.
Defined.

Lemma CommitBlock_same_id_twice_witness :
  let after :=
    node (CommitBlock (pbjson := MoreDoubles.sample_blocks)
            (node (CommitBlock (pbjson := MoreDoubles.sample_blocks)
                     TestDoubles.node_with_r1 TestDoubles.block0))
            MoreDoubles.block0_twin) in
  ChainManager.extends (CommitBlock_meta TestDoubles.block0)
                       (chain_ TestDoubles.node_with_r1)
  /\ ChainManager.getLastHash (chain_ after) = "h0"
  /\ (blockchain.hash <$>
        GetBlockResponse.block
          (response (GetBlock (pbjson := MoreDoubles.sample_blocks) after
                       {| GetBlockRequest.id := 0 |})))
     = Some "h0-twin".
Proof.
  cbv zeta.
  assert (Hext : ChainManager.extends (CommitBlock_meta TestDoubles.block0)
                   (chain_ TestDoubles.node_with_r1)) by (split; reflexivity).
  assert (Hdisk : ~ disk_fails (disk TestDoubles.node_with_r1)).
  { intros [[H | H] | H]; [now apply H | discriminate H | discriminate H]. }
  destruct (CommitBlock_same_id_twice (pbjson := MoreDoubles.sample_blocks)
              TestDoubles.node_with_r1 TestDoubles.block0
              MoreDoubles.block0_twin Hext eq_refl Hdisk) as (Hidx & _ & _).
  split; [exact Hext |]. split.
  - unfold ChainManager.getLastHash. rewrite Hidx. reflexivity.
  - vm_compute. reflexivity.
Defined.

(** ** Heartbeats and leadership *)

Lemma SendHeartbeat_leader_rule now (self : Node) (req : HeartbeatRequest.t) :
  ElectionState.getLeader (state_ (node (SendHeartbeat now self req)))
  = if String.eqb (ElectionState.getLeader (state_ self)) EmptyString
    then HeartbeatRequest.current_leader_address req
    else ElectionState.getLeader (state_ self).
Proof.
  unfold SendHeartbeat, ElectionState.getLeader.
  cbn [node state_ with_hb_table].
  destruct (String.eqb (ElectionState.leader_address (state_ self))
                       EmptyString) eqn:He; cbn [andb]; [| reflexivity].
  destruct (String.eqb_spec (HeartbeatRequest.current_leader_address req)
                            EmptyString) as [Hl | Hl]; cbn; [| reflexivity].
  apply String.eqb_eq in He. congruence.
Qed.

(** X12. [SendHeartbeat] adopts the announced leader only while the node
    knows none: a node with a leader keeps it whatever the heartbeat says.
    The handler never touches the vote, the mempool, the chain, the disk or
    the peer list, and always answers "success". *)
Theorem SendHeartbeat_adopts_once now (self : Node) (req : HeartbeatRequest.t) :
  let out := SendHeartbeat now self req in
  (ElectionState.getLeader (state_ self) <> EmptyString ->
   ElectionState.getLeader (state_ (node out))
   = ElectionState.getLeader (state_ self))
  /\ (ElectionState.getLeader (state_ self) = EmptyString ->
      ElectionState.getLeader (state_ (node out))
      = HeartbeatRequest.current_leader_address req)
  /\ ElectionState.getVotedFor (state_ (node out))
     = ElectionState.getVotedFor (state_ self)
  /\ mempool_ (node out) = mempool_ self
  /\ chain_ (node out) = chain_ self
  /\ disk (node out) = disk self
  /\ gossip_stubs_ (node out) = gossip_stubs_ self
  /\ self_addr_ (node out) = self_addr_ self
  /\ response out = {| HeartbeatResponse.status := "success" |}
  /\ rpc_status out = grpc.Status_OK /\ effects out = [].
Proof.
  cbv zeta. split; [| split].
  - intros Hne. rewrite SendHeartbeat_leader_rule.
    now destruct (String.eqb_spec (ElectionState.getLeader (state_ self))
                                  EmptyString).
  - intros He. rewrite SendHeartbeat_leader_rule, He. reflexivity.
  - unfold SendHeartbeat. cbn. destruct (_ && _); cbn; auto 10.
Qed.


Lemma heartbeats_leader_rule arrivals : forall self,
  ElectionState.getLeader (state_ (heartbeats arrivals self))
  = if String.eqb (ElectionState.getLeader (state_ self)) EmptyString
    then first_leader arrivals
    else ElectionState.getLeader (state_ self).
Proof.
  induction arrivals as [|[now req] rest IH]; intros self; cbn [heartbeats fold_left].
  - cbn. now destruct (String.eqb_spec (ElectionState.getLeader (state_ self))
                                       EmptyString).
  - fold (heartbeats rest (node (SendHeartbeat now self req))).
    rewrite IH, SendHeartbeat_leader_rule. cbn [first_leader fst snd].
    destruct (String.eqb_spec (ElectionState.getLeader (state_ self))
                              EmptyString) as [He | Hne].
    + destruct (String.eqb_spec
                  (HeartbeatRequest.current_leader_address req) EmptyString);
        reflexivity.
    + now destruct (String.eqb_spec (ElectionState.getLeader (state_ self))
                                    EmptyString).
Qed.

(** X14. Over any sequence of heartbeats, a node that starts without a
    leader ends with the first leader that one of them announces (none if
    none does), and a node that starts with a leader ends with that
    leader. *)
Theorem heartbeats_first_leader (arrivals : list (Z * HeartbeatRequest.t))
        (self : Node) :
  (ElectionState.getLeader (state_ self) = EmptyString ->
   ElectionState.getLeader (state_ (heartbeats arrivals self))
   = first_leader arrivals)
  /\ (ElectionState.getLeader (state_ self) <> EmptyString ->
      ElectionState.getLeader (state_ (heartbeats arrivals self))
      = ElectionState.getLeader (state_ self)).
Proof.
  rewrite heartbeats_leader_rule. split.
  - intros ->. reflexivity.
  - intros Hne.
    now destruct (String.eqb_spec (ElectionState.getLeader (state_ self))
                                  EmptyString).
Qed.

(** X15. [NotifyLeadership] sets the leader without any check, and the
    heartbeats that follow cannot replace it: after a notification with a
    non-empty address the node holds that address through any sequence of
    heartbeats; a notification with the empty address clears the leader,
    and the next announced leader is adopted. *)
Theorem NotifyLeadership_overrides (arrivals : list (Z * HeartbeatRequest.t))
        (self : Node) (req : NotifyLeadershipRequest.t) :
  let notified := node (NotifyLeadership self req) in
  ElectionState.getLeader (state_ notified) = NotifyLeadershipRequest.address req
  /\ ElectionState.getVotedFor (state_ notified)
     = ElectionState.getVotedFor (state_ self)
  /\ ElectionState.getLeader (state_ (heartbeats arrivals notified))
     = if String.eqb (NotifyLeadershipRequest.address req) EmptyString
       then first_leader arrivals
       else NotifyLeadershipRequest.address req.
Proof.
  cbv zeta. split; [reflexivity |]. split; [reflexivity |].
  now rewrite heartbeats_leader_rule.
Qed.

(** A node that was told its leader ignores a later announcement. *)
Example NotifyLeadership_then_heartbeat :
  let told := node (NotifyLeadership TestDoubles.fresh_node
                      {| NotifyLeadershipRequest.address := "10.0.0.3:50051" |}) in
  let hb :=
    {| HeartbeatRequest.from_address := "10.0.0.2:50051";
       HeartbeatRequest.current_leader_address := "10.0.0.2:50051";
       HeartbeatRequest.latest_block_id := 4;
       HeartbeatRequest.mem_pool_size := 0 |} in
  ElectionState.getLeader (state_ (heartbeats [(1, hb); (2, hb)] told))
  = "10.0.0.3:50051"
  /\ ElectionState.getLeader
       (state_ (heartbeats [(1, hb); (2, hb)] TestDoubles.fresh_node))
     = "10.0.0.2:50051".
Proof. vm_compute. split; reflexivity. Qed.

(** ** Elections *)

(** The handler in one equation: the rule on the table's stats, and the
    node that a yes and a no leave. *)
Lemma TriggerElection_rule (self : Node) (req : TriggerElectionRequest.t) :
  Z.of_nat (length (mempool_ self)) < 2 ^ 63 ->
  let c := TriggerElectionRequest.address req in
  let cand := heartbeat_stats (hb_table_ self) c in
  let my_blocks := ChainManager.getLastID (chain_ self) in
  let my_pool := Z.of_nat (length (mempool_ self)) in
  let yes :=
    (fst cand >? my_blocks)
    || ((fst cand =? my_blocks) && (snd cand >? my_pool))
    || ((fst cand =? my_blocks) && (snd cand =? my_pool)
        && string_gt c (self_addr_ self)) in
  response (TriggerElection self req)
  = {| TriggerElectionResponse.vote := yes;
       TriggerElectionResponse.term := 0;
       TriggerElectionResponse.status := "success" |}
  /\ node (TriggerElection self req)
     = if yes then with_state (ElectionState.setVotedFor c (state_ self)) self
       else self.
Proof.
  intros Hsize. cbv zeta. unfold TriggerElection.
  rewrite ElectionFacts.candidate_stats_all.
  destruct (heartbeat_stats _ _) as [cand_blocks cand_pool].
  unfold MempoolManager.LoadAll. rewrite to_int64_small by lia.
  cbn [fst snd]. destruct (_ || _); cbn; auto.
Qed.

Lemma string_gt_antisym a b : a <> b -> string_gt a b = negb (string_gt b a).
Proof.
  intros Hne. unfold string_gt. rewrite (String.compare_antisym a b).
  destruct (String.compare b a) eqn:E; cbn; try reflexivity.
  apply String.compare_eq_iff in E. congruence.
Qed.

(** X16. Heartbeat and election compose: after a heartbeat of [c], the
    voter answers [c]'s election request by the numbers of that heartbeat.
    It votes yes exactly when [c] reported a block id above the voter's
    head, or the same id and a pool larger than the voter's, or the same of
    both while [c]'s address is the greater one. *)
Theorem TriggerElection_after_heartbeat now (self : Node)
        (hb : HeartbeatRequest.t) :
  Z.of_nat (length (mempool_ self)) < 2 ^ 63 ->
  let c := HeartbeatRequest.from_address hb in
  let heard := node (SendHeartbeat now self hb) in
  let my_blocks := ChainManager.getLastID (chain_ self) in
  let my_pool := Z.of_nat (length (mempool_ self)) in
  TriggerElectionResponse.vote
    (response (TriggerElection heard {| TriggerElectionRequest.address := c |}))
  = true
  <-> HeartbeatRequest.latest_block_id hb > my_blocks
      \/ (HeartbeatRequest.latest_block_id hb = my_blocks
          /\ HeartbeatRequest.mem_pool_size hb > my_pool)
      \/ (HeartbeatRequest.latest_block_id hb = my_blocks
          /\ HeartbeatRequest.mem_pool_size hb = my_pool
          /\ lex_lt (self_addr_ self) c).
Proof.
  intros Hsize. cbv zeta.
  set (heard := node (SendHeartbeat now self hb)).
  assert (Hframe : mempool_ heard = mempool_ self /\ chain_ heard = chain_ self
                   /\ self_addr_ heard = self_addr_ self).
  { subst heard. unfold SendHeartbeat. cbn. destruct (_ && _); cbn; auto. }
  destruct Hframe as (Hpool & Hchain & Haddr).
  assert (Hsize' : Z.of_nat (length (mempool_ heard)) < 2 ^ 63)
    by now rewrite Hpool.
  destruct (TriggerElection_rule heard
              {| TriggerElectionRequest.address := HeartbeatRequest.from_address hb |}
              Hsize') as [-> _].
  cbn [TriggerElectionResponse.vote TriggerElectionRequest.address].
  subst heard. rewrite (SendHeartbeat_stats now self hb).
  fold (node (SendHeartbeat now self hb)). rewrite Hpool, Hchain, Haddr.
  cbn [fst snd].
  pose proof (string_gt_spec (HeartbeatRequest.from_address hb)
                             (self_addr_ self)) as Hgt.
  rewrite !orb_true_iff, !andb_true_iff, Hgt.
  rewrite !Z.eqb_eq, !Z.gtb_ltb, !Z.ltb_lt. split.
  - intros [[H | H] | H]; [left | right; left | right; right]; try lia; tauto.
  - intros [H | [H | H]]; [left; left | left; right | right]; try lia; tauto.
Qed.


(** X18. Between two nodes that see each other with stats equal to their
    own, the tie-break decides one way: exactly one of the two votes for
    the other, the one with the smaller address. *)
Theorem tie_break_one_way (a b : Node) :
  self_addr_ a <> self_addr_ b ->
  Z.of_nat (length (mempool_ a)) < 2 ^ 63 ->
  Z.of_nat (length (mempool_ b)) < 2 ^ 63 ->
  heartbeat_stats (hb_table_ a) (self_addr_ b)
  = (ChainManager.getLastID (chain_ a), Z.of_nat (length (mempool_ a))) ->
  heartbeat_stats (hb_table_ b) (self_addr_ a)
  = (ChainManager.getLastID (chain_ b), Z.of_nat (length (mempool_ b))) ->
  let a_votes :=
    TriggerElectionResponse.vote
      (response (TriggerElection a
                   {| TriggerElectionRequest.address := self_addr_ b |})) in
  let b_votes :=
    TriggerElectionResponse.vote
      (response (TriggerElection b
                   {| TriggerElectionRequest.address := self_addr_ a |})) in
  a_votes = negb b_votes
  /\ (a_votes = true <-> lex_lt (self_addr_ a) (self_addr_ b)).
Proof.
  intros Hne Ha Hb Hsa Hsb. cbv zeta.
  destruct (TriggerElection_rule a
              {| TriggerElectionRequest.address := self_addr_ b |} Ha) as [-> _].
  destruct (TriggerElection_rule b
              {| TriggerElectionRequest.address := self_addr_ a |} Hb) as [-> _].
  cbn [TriggerElectionResponse.vote TriggerElectionRequest.address].
  rewrite Hsa, Hsb. cbn [fst snd].
  rewrite !Z.eqb_refl, !Z.gtb_ltb, !Z.ltb_irrefl. cbn [orb andb].
  rewrite <- string_gt_spec. split; [| reflexivity].
  apply string_gt_antisym. congruence.
Qed.

(** X19. A candidate without an entry in the heartbeat table is taken to
    have block id 0 and an empty pool.  The voter says yes to it exactly
    when its own head is below 0 (its chain is empty), or its head is 0,
    its pool empty and the candidate's address the greater one. *)
Theorem TriggerElection_unknown_candidate (self : Node)
        (req : TriggerElectionRequest.t) :
  hb_table_ self !! TriggerElectionRequest.address req = None ->
  Z.of_nat (length (mempool_ self)) < 2 ^ 63 ->
  TriggerElectionResponse.vote (response (TriggerElection self req)) = true
  <-> ChainManager.getLastID (chain_ self) < 0
      \/ (ChainManager.getLastID (chain_ self) = 0
          /\ mempool_ self = []
          /\ lex_lt (self_addr_ self) (TriggerElectionRequest.address req)).
Proof.
  intros Hnone Hsize.
  destruct (TriggerElection_rule self req Hsize) as [-> _].
  cbn [TriggerElectionResponse.vote]. unfold heartbeat_stats.
  rewrite Hnone. cbn [fst snd].
  pose proof (string_gt_spec (TriggerElectionRequest.address req)
                             (self_addr_ self)) as Hgt.
  rewrite !orb_true_iff, !andb_true_iff, Hgt.
  rewrite !Z.eqb_eq, !Z.gtb_ltb, !Z.ltb_lt.
  assert (Hlen : Z.of_nat (length (mempool_ self)) = 0 <-> mempool_ self = []).
  { destruct (mempool_ self); cbn; split; intros; try reflexivity;
      try discriminate; lia. }
  split.
  - intros [[H | H] | H]; [left; lia | lia |].
    right. destruct H as [[H1 H2] H3]. repeat split; try lia; try assumption.
    apply Hlen. lia.
  - intros [H | (H1 & H2 & H3)]; [left; left; lia |].
    right. repeat split; try lia; try assumption.
    symmetry. now apply Hlen.
Qed.

Lemma TriggerElection_after_heartbeat_witness :
  let hb :=
    {| HeartbeatRequest.from_address := "10.0.0.2:50051";
       HeartbeatRequest.current_leader_address := EmptyString;
       HeartbeatRequest.latest_block_id := 3;
       HeartbeatRequest.mem_pool_size := 0 |} in
  Z.of_nat (length (mempool_ TestDoubles.node_with_r1)) < 2 ^ 63
  /\ TriggerElectionResponse.vote
       (response
          (TriggerElection (node (SendHeartbeat 1000 TestDoubles.node_with_r1 hb))
             {| TriggerElectionRequest.address := "10.0.0.2:50051" |}))
     = true.
Proof.
  cbv zeta.
  assert (H : Z.of_nat (length (mempool_ TestDoubles.node_with_r1)) < 2 ^ 63)
    by (vm_compute; reflexivity).
  split; [exact H |].
  apply (TriggerElection_after_heartbeat 1000 TestDoubles.node_with_r1
           {| HeartbeatRequest.from_address := "10.0.0.2:50051";
              HeartbeatRequest.current_leader_address := EmptyString;
              HeartbeatRequest.latest_block_id := 3;
              HeartbeatRequest.mem_pool_size := 0 |} H).
  left. vm_compute. reflexivity.
Defined.

Lemma tie_break_one_way_witness :
  self_addr_ MoreDoubles.node_a <> self_addr_ MoreDoubles.node_b
  /\ TriggerElectionResponse.vote
       (response (TriggerElection MoreDoubles.node_a
                    {| TriggerElectionRequest.address := "10.0.0.2:50051" |}))
     = true
  /\ TriggerElectionResponse.vote
       (response (TriggerElection MoreDoubles.node_b
                    {| TriggerElectionRequest.address := "10.0.0.1:50051" |}))
     = false.
Proof.
  assert (Hne : self_addr_ MoreDoubles.node_a <> self_addr_ MoreDoubles.node_b)
    by discriminate.
  assert (Ha : Z.of_nat (length (mempool_ MoreDoubles.node_a)) < 2 ^ 63)
    by (vm_compute; reflexivity).
  assert (Hb : Z.of_nat (length (mempool_ MoreDoubles.node_b)) < 2 ^ 63)
    by (vm_compute; reflexivity).
  destruct (tie_break_one_way MoreDoubles.node_a MoreDoubles.node_b
              Hne Ha Hb eq_refl eq_refl) as [Hneg Hiff].
  assert (Hyes :
    TriggerElectionResponse.vote
      (response (TriggerElection MoreDoubles.node_a
                   {| TriggerElectionRequest.address :=
                        self_addr_ MoreDoubles.node_b |})) = true).
  { apply Hiff. cbn. lex_lt_literal. }
  split; [exact Hne |]. split; [exact Hyes |].
  rewrite Hyes in Hneg. symmetry in Hneg.
  now apply negb_true_iff in Hneg.
Defined.

Lemma TriggerElection_unknown_candidate_witness :
  let req := {| TriggerElectionRequest.address := "10.0.0.9:50051" |} in
  hb_table_ TestDoubles.fresh_node !! TriggerElectionRequest.address req = None
  /\ Z.of_nat (length (mempool_ TestDoubles.fresh_node)) < 2 ^ 63
  /\ TriggerElectionResponse.vote
       (response (TriggerElection TestDoubles.fresh_node req)) = true.
Proof.
  cbv zeta.
  assert (Hn : hb_table_ TestDoubles.fresh_node
               !! TriggerElectionRequest.address
                    {| TriggerElectionRequest.address := "10.0.0.9:50051" |}
               = None) by reflexivity.
  assert (Hs : Z.of_nat (length (mempool_ TestDoubles.fresh_node)) < 2 ^ 63)
    by (vm_compute; reflexivity).
  split; [exact Hn |]. split; [exact Hs |].
  apply (TriggerElection_unknown_candidate TestDoubles.fresh_node _ Hn Hs).
  left. vm_compute. reflexivity.
Defined.

(** ** Handlers in sequence *)

Section Sequences.
Context `{crypto : OpenSSL} `{pbjson : ProtobufJson}.
Import common.

Lemma CommitBlock_head (self : Node) (blk : blockchain.Block) :
  ChainManager.extends (CommitBlock_meta blk) (chain_ self) ->
  ChainManager.getLastHash (chain_ (node (CommitBlock self blk)))
  = blockchain.hash blk.
Proof.
  intros Hext.
  destruct (CommitBlock_frame self blk) as (_ & _ & -> & _).
  rewrite (ChainFacts.append_extends _ _ Hext).
  unfold ChainManager.getLastHash. cbn. now rewrite ChainFacts.last_snoc.
Qed.

(** X20. The chain link makes a committed block unrepeatable: once a block
    that extends the head is committed, its [hash] is what [ProposeBlock]
    compares [previous_hash] with.  The block itself is voted down when
    proposed again (unless its [hash] equals its own [previous_hash]), and
    a block that names it as predecessor is voted for exactly when its
    Merkle root is right. *)
Theorem ProposeBlock_after_commit (self : Node) (blk next : blockchain.Block) :
  ChainManager.extends (CommitBlock_meta blk) (chain_ self) ->
  let after := node (CommitBlock self blk) in
  (blockchain.hash blk <> blockchain.previous_hash blk ->
   BlockVoteResponse.vote (response (ProposeBlock after blk)) = false)
  /\ (blockchain.previous_hash next = blockchain.hash blk ->
      (BlockVoteResponse.vote (response (ProposeBlock after next)) = true
       <-> ComputeMerkleRoot
             (map (fun a => SHA256Hex (SubmitAudit_payload a))
                  (blockchain.audits next))
           = blockchain.merkle_root next)).
Proof.
  intros Hext. cbv zeta. pose proof (CommitBlock_head self blk Hext) as Hhead.
  split.
  - intros Hne. unfold ProposeBlock. rewrite Hhead.
    destruct (negb (String.eqb (ComputeMerkleRoot _) _)); [reflexivity |].
    destruct (String.eqb_spec (blockchain.previous_hash blk)
                              (blockchain.hash blk)); [congruence |].
    reflexivity.
  - intros Hprev. unfold ProposeBlock.
    rewrite Hhead, Hprev, String.eqb_refl, ProposeBlock_leafs_map.
    rewrite (map_ext (fun a => SHA256Hex (SubmitAudit_payload a))
               (fun a => SHA256Hex (CanonicalSpec.canonical_encoding a)))
      by (intros a; now rewrite SubmitAudit_payload_canonical).
    destruct (String.eqb_spec
                (ComputeMerkleRoot
                   (map (fun a => SHA256Hex (CanonicalSpec.canonical_encoding a))
                        (blockchain.audits next)))
                (blockchain.merkle_root next)) as [Hroot | Hroot];
      cbn [negb response BlockVoteResponse.vote BlockVoteResponse.set_vote
           BlockVoteResponse.set_status BlockVoteResponse.set_error_message
           BlockVoteResponse.default];
      split; intros H; first [assumption | reflexivity | discriminate H
                             | contradiction].
Qed.

(** X21. [SubmitAudit] does not consult the chain: an audit that was
    committed in a block, and so removed from the mempool, is admitted
    again when it is submitted again with its valid signature, and is
    gossiped again. *)
Theorem committed_audit_readmitted (net : Network) (self : Node)
        (blk : blockchain.Block) (request : FileAudit) :
  In request (blockchain.audits blk) ->
  VerifySignature (SubmitAudit_payload request)
                  (signature request) (public_key request) = true ->
  let committed := node (CommitBlock self blk) in
  let out := SubmitAudit net committed request in
  MempoolManager.contains (req_id request) (mempool_ committed) = false
  /\ rpc_status out = grpc.Status_OK
  /\ In request (mempool_ (node out))
  /\ length (List.filter is_rpc (effects out)) = length (gossip_stubs_ self).
Proof.
  intros Hin Hsig. cbv zeta.
  destruct (CommitBlock_frame self blk) as (_ & _ & _ & Hpool & _).
  assert (Hgone : MempoolManager.contains (req_id request)
                    (mempool_ (node (CommitBlock self blk))) = false).
  { destruct (MempoolManager.contains _ _) eqn:E; [| reflexivity].
    apply MempoolFacts.contains_In in E. rewrite Hpool in E.
    exfalso. revert E.
    apply (MempoolFacts.RemoveBatch_removes _ (mempool_ self)).
    now apply in_map. }
  assert (Hstubs : gossip_stubs_ (node (CommitBlock self blk))
                   = gossip_stubs_ self).
  { unfold CommitBlock, FileSystem.create_directories, FileSystem.ofstream.
    cbn. destruct (FileSystem.mkdir_error (disk self));
      [| destruct (FileSystem.read_only (disk self))]; reflexivity. }
  split; [exact Hgone |]. unfold SubmitAudit. rewrite Hsig.
  cbn [negb rpc_status node effects mempool_ gossip_stubs_ with_mempool].
  split; [reflexivity |]. split.
  - unfold MempoolManager.Append. rewrite Hgone.
    apply in_or_app. right. now left.
  - now rewrite gossip_calls, length_map, Hstubs.
Qed.
End Sequences.

Lemma ProposeBlock_after_commit_witness :
  let after := node (CommitBlock (pbjson := MoreDoubles.sample_blocks)
                       TestDoubles.node_with_r1 TestDoubles.block0) in
  ChainManager.extends (CommitBlock_meta TestDoubles.block0)
                       (chain_ TestDoubles.node_with_r1)
  /\ response (ProposeBlock TestDoubles.node_with_r1 TestDoubles.block0)
     = {| BlockVoteResponse.vote := true;
          BlockVoteResponse.status := "success";
          BlockVoteResponse.error_message := EmptyString |}
  /\ BlockVoteResponse.vote (response (ProposeBlock after TestDoubles.block0))
     = false.
Proof.
  cbv zeta.
  assert (Hext : ChainManager.extends (CommitBlock_meta TestDoubles.block0)
                   (chain_ TestDoubles.node_with_r1)) by (split; reflexivity).
  split; [exact Hext |]. split; [vm_compute; reflexivity |].
  apply (ProposeBlock_after_commit (pbjson := MoreDoubles.sample_blocks)
           TestDoubles.node_with_r1 TestDoubles.block0 TestDoubles.block0 Hext).
  discriminate.
Defined.

Lemma committed_audit_readmitted_witness :
  let committed := node (CommitBlock (pbjson := MoreDoubles.sample_blocks)
                           TestDoubles.node_with_r1 TestDoubles.block0) in
  In TestDoubles.r1 (blockchain.audits TestDoubles.block0)
  /\ mempool_ committed = []
  /\ In TestDoubles.r1
        (mempool_ (node (SubmitAudit (crypto := TestDoubles.digest_echo)
                           TestDoubles.bad_network committed TestDoubles.r1))).
Proof.
  cbv zeta.
  assert (Hin : In TestDoubles.r1 (blockchain.audits TestDoubles.block0))
    by (now left).
  assert (Hsig : VerifySignature (crypto := TestDoubles.digest_echo)
                   (SubmitAudit_payload TestDoubles.r1)
                   (common.signature TestDoubles.r1)
                   (common.public_key TestDoubles.r1) = true)
    by (vm_compute; reflexivity).
  split; [exact Hin |]. split; [vm_compute; reflexivity |].
  apply (committed_audit_readmitted (crypto := TestDoubles.digest_echo)
           (pbjson := MoreDoubles.sample_blocks) TestDoubles.bad_network
           TestDoubles.node_with_r1 TestDoubles.block0 TestDoubles.r1 Hin Hsig).
Defined.
